(** * Repository rules: ruleset selection, rule aggregation, metadata matchers

    A shallow embedding of [app/src/lib/helpers/repo-rules.ts].

    The file has three layers.
    - The data the helper consumes and produces (rules, rulesets, the
      summary record), with JavaScript's [undefined] as [option] and a
      thrown exception as the [Throw] arm of [Result].
    - The functions of the helper, written over the interfaces of the two
      external packages it calls ([minimatch] and [re2js]) and of the
      summary's list class, so that every general theorem holds whatever
      those packages compute.
    - Small reference models of the two packages on a fragment of their
      pattern languages, used where a statement needs a concrete engine. *)

From Stdlib Require Import String Ascii List ZArith Bool Lia.
Import ListNotations.
Open Scope list_scope.
Open Scope string_scope.

Set Implicit Arguments.

(* ================================================================== *)
(** ** Exceptions *)

(** The only exception the helper can meet is the one [RE2JS.compile]
    raises on a pattern it cannot parse. *)
Inductive Exception : Type :=
| RE2JSSyntaxException (message : string).

Inductive Result (A : Type) : Type :=
| Ok (value : A)
| Throw (e : Exception).

Arguments Ok {A} value.
Arguments Throw {A} e.

Definition bind {A B : Type} (r : Result A) (k : A -> Result B) : Result B :=
  match r with
  | Ok a => k a
  | Throw e => Throw e
  end.

Notation "x <- r ;; k" := (bind r (fun x => k))
  (at level 61, r at next level, right associativity).

Definition completes {A : Type} (r : Result A) : bool :=
  match r with Ok _ => true | Throw _ => false end.

(* ================================================================== *)
(** ** Interfaces of the external packages *)

(** [MinimatchOptions] of the [minimatch] package, restricted to the
    fields the helper sets. *)
Record MinimatchOptions : Type := {
  nobrace : bool;
  nocomment : bool;
  noext : bool;
  nonegate : bool;
  optimizationLevel : Z;
  preserveMultipleSlashes : bool
}.

Definition REPO_RULES_MINIMATCH_OPTIONS : MinimatchOptions := {|
  nobrace := true;
  nocomment := true;
  noext := true;
  nonegate := true;
  optimizationLevel := 0;
  preserveMultipleSlashes := true
|}.

(** [minimatch.match(list, pattern, options)]: the entries of [list] the
    pattern selects. *)
Class Minimatch : Type := {
  minimatch_match : list string -> string -> MinimatchOptions -> list string
}.

(** The part of [re2js] the helper uses: [RE2JS.compile], which throws on
    a malformed pattern, [RE2JS.quote], and [regex.matcher(s).find()]. *)
Class RE2JSApi : Type := {
  RE2JS : Type;
  RE2JS_compile : string -> Result RE2JS;
  RE2JS_quote : string -> string;
  RE2JS_find : RE2JS -> string -> bool
}.

(* ================================================================== *)
(** ** Data model *)

(** Modelled from the spec: the enumeration [APIRepoRuleType] is declared
    in [lib/api], outside the helper. The ten types the spec lists are
    kept; any other type string of the API is [OtherRuleType]. *)
Inductive APIRepoRuleType : Type :=
| Update
| Creation
| PullRequest
| RequiredDeployments
| RequiredSignatures
| RequiredStatusChecks
| CommitMessagePattern
| CommitAuthorEmailPattern
| CommitterEmailPattern
| BranchNamePattern
| OtherRuleType (name : string).

(** Modelled from the spec: the enumeration [APIRepoRuleMetadataOperator]
    is declared in [lib/api]. An operator string the helper does not know
    is [OtherOperator]. *)
Inductive APIRepoRuleMetadataOperator : Type :=
| StartsWith
| EndsWith
| Contains
| RegexMatch
| OtherOperator (name : string).

(** Modelled from the spec: [IAPIRepoRuleMetadataParameters] of [lib/api]
    (operator, pattern text, negate flag). *)
Record IAPIRepoRuleMetadataParameters : Type := {
  operator : APIRepoRuleMetadataOperator;
  pattern : string;
  negate : bool
}.

(** Modelled from the spec: [IAPIRepoRule] of [lib/api]. [parameters] is
    present on pattern-typed rules only. *)
Record IAPIRepoRule : Type := {
  type : APIRepoRuleType;
  ruleset_id : Z;
  parameters : option IAPIRepoRuleMetadataParameters
}.

(** Modelled from the spec: the [ref_name] condition of a ruleset, two
    ordered pattern lists, each of which the helper reads through an
    optional chain. *)
Record RefNameCondition : Type := {
  include : option (list string);
  exclude : option (list string)
}.

Record RulesetConditions : Type := {
  ref_name : option RefNameCondition
}.

(** Modelled from the spec: [IAPIRepoRuleset] of [lib/api]. *)
Record IAPIRepoRuleset : Type := {
  id : Z;
  current_user_can_bypass : string;
  conditions : option RulesetConditions
}.

(** Modelled from the spec: [RepoRuleEnforced] of [models/repo-rules], the
    tri-state enforcement level. [Enforced] is the value [true] of the
    helper, [Bypass] the value ['bypass'], and [NotPresent] the value a
    fresh summary holds. *)
Inductive RepoRuleEnforced : Type :=
| NotPresent
| Bypass
| Enforced.

(** [RepoRulesMetadataMatcher]: a closure from the candidate string. *)
Definition RepoRulesMetadataMatcher : Type := string -> bool.

(** [IRepoRulesMetadataRule], as [toMetadataRule] builds it. *)
Record IRepoRulesMetadataRule : Type := {
  enforced : RepoRuleEnforced;
  matcher : RepoRulesMetadataMatcher;
  humanDescription : string;
  rulesetId : Z
}.

(** The class of the summary's four pattern lists lives in
    [models/repo-rules]; the helper only creates one and calls [push] on
    it, with the possibly undefined result of [toMetadataRule]. *)
Class MetadataRulesApi : Type := {
  RepoRulesMetadataRules : Type;
  newRepoRulesMetadataRules : RepoRulesMetadataRules;
  push : RepoRulesMetadataRules -> option IRepoRulesMetadataRule ->
         RepoRulesMetadataRules
}.

(** Modelled from the spec: [RepoRulesInfo] of [models/repo-rules], one
    enforcement field per simple category and four pattern lists. *)
Record RepoRulesInfo `{ST : MetadataRulesApi} : Type := {
  basicCommitWarning : RepoRuleEnforced;
  creationRestricted : RepoRuleEnforced;
  pullRequestRequired : RepoRuleEnforced;
  commitMessagePatterns : RepoRulesMetadataRules;
  commitAuthorEmailPatterns : RepoRulesMetadataRules;
  committerEmailPatterns : RepoRulesMetadataRules;
  branchNamePatterns : RepoRulesMetadataRules
}.

(** Modelled from the spec: [new RepoRulesInfo()], every category not
    present and every list empty. *)
Definition newRepoRulesInfo `{ST : MetadataRulesApi} : RepoRulesInfo := {|
  basicCommitWarning := NotPresent;
  creationRestricted := NotPresent;
  pullRequestRequired := NotPresent;
  commitMessagePatterns := newRepoRulesMetadataRules;
  commitAuthorEmailPatterns := newRepoRulesMetadataRules;
  committerEmailPatterns := newRepoRulesMetadataRules;
  branchNamePatterns := newRepoRulesMetadataRules
|}.

(** [ReadonlyMap<number, IAPIRepoRuleset>]: a JavaScript [Map] iterates in
    insertion order, so the map is an association list; [get] returns the
    entry of the key and [values] lists the entries in order. *)
Definition RulesetMap : Type := list (Z * IAPIRepoRuleset).

Fixpoint Map_get (m : RulesetMap) (k : Z) : option IAPIRepoRuleset :=
  match m with
  | [] => None
  | (k', v) :: m' => if Z.eqb k' k then Some v else Map_get m' k
  end.

Definition Map_values (m : RulesetMap) : list IAPIRepoRuleset := map snd m.

Definition Map_size (m : RulesetMap) : nat := length m.

(** The double quote of the description templates. *)
Definition dquote : string :=
  String (Ascii false true false false false true false false) EmptyString.

(* ================================================================== *)
(** ** Ruleset selector *)

Section Selector.
Context `{MM : Minimatch}.

(** [defaultBranchName && defaultBranchName === branchName]. *)
Definition isDefaultBranch (defaultBranchName : option string)
           (branchName : string) : bool :=
  match defaultBranchName with
  | None => false
  | Some d => negb (String.eqb d EmptyString) && String.eqb d branchName
  end.

(** The keyword test of the loop body. *)
Definition matchesKeyword (p branchName : string)
           (defaultBranchName : option string) : bool :=
  String.eqb p "~ALL"
  || (String.eqb p "~DEFAULT" && isDefaultBranch defaultBranchName branchName).

(** [minimatch.match([branchName], p, OPTIONS).length > 0]. *)
Definition globMatches (branchName p : string) : bool :=
  Nat.ltb 0 (length (minimatch_match [branchName] p
                                     REPO_RULES_MINIMATCH_OPTIONS)).

(** The [for] loop of [branchNameMatchesPatterns]. *)
Fixpoint matchesAnyPattern (branchName : string) (patterns : list string)
         (defaultBranchName : option string) (matchKeywords : bool)
  : bool :=
  match patterns with
  | [] => false
  | p :: rest =>
      if matchKeywords && matchesKeyword p branchName defaultBranchName
      then true
      else if globMatches branchName p
      then true
      else matchesAnyPattern branchName rest defaultBranchName matchKeywords
  end.

Definition branchNameMatchesPatterns (branchName : string)
           (patterns : option (list string))
           (defaultBranchName : option string) (matchKeywords : bool)
  : bool :=
  matchesAnyPattern branchName
    (match patterns with Some ps => ps | None => [] end)
    defaultBranchName matchKeywords.

(** [rs.conditions?.ref_name?.include] and [...?.exclude]. *)
Definition included_of (rs : IAPIRepoRuleset) : option (list string) :=
  match conditions rs with
  | None => None
  | Some c => match ref_name c with
              | None => None
              | Some r => include r
              end
  end.

Definition excluded_of (rs : IAPIRepoRuleset) : option (list string) :=
  match conditions rs with
  | None => None
  | Some c => match ref_name c with
              | None => None
              | Some r => exclude r
              end
  end.

(** [!l || l.length === 0]. *)
Definition noPatterns (l : option (list string)) : bool :=
  match l with
  | None => true
  | Some [] => true
  | Some (_ :: _) => false
  end.

(** The body of the loop over [rulesets.values()], threading the array
    [applicableRulesets]. *)
Fixpoint selectLoop (branchName : string) (values : list IAPIRepoRuleset)
         (defaultBranchName : option string)
         (applicableRulesets : list IAPIRepoRuleset)
  : list IAPIRepoRuleset :=
  match values with
  | [] => applicableRulesets
  | rs :: rest =>
      let included := included_of rs in
      let excluded := excluded_of rs in
      if noPatterns included && noPatterns excluded
      then selectLoop branchName rest defaultBranchName applicableRulesets
      else if negb (branchNameMatchesPatterns branchName included
                                              defaultBranchName true)
      then selectLoop branchName rest defaultBranchName applicableRulesets
      else if negb (branchNameMatchesPatterns branchName excluded
                                              defaultBranchName false)
      then selectLoop branchName rest defaultBranchName
                      (applicableRulesets ++ [rs])%list
      else selectLoop branchName rest defaultBranchName applicableRulesets
  end.

Definition getRulesetsApplicableToBranchName (branchName : string)
           (rulesets : RulesetMap) (defaultBranchName : option string)
  : list IAPIRepoRuleset :=
  if String.eqb branchName EmptyString || Nat.eqb (Map_size rulesets) 0
  then []
  else selectLoop branchName (Map_values rulesets) defaultBranchName [].

End Selector.

(* ================================================================== *)
(** ** Metadata matchers *)

Section Matchers.
Context `{RE : RE2JSApi}.

Definition toHumanDescription (apiParams : IAPIRepoRuleMetadataParameters)
  : string :=
  let description := "must " in
  let description :=
    if negate apiParams then description ++ "not " else description in
  match operator apiParams with
  | RegexMatch =>
      description ++ "match the regular expression " ++ dquote
                  ++ pattern apiParams ++ dquote
  | op =>
      let description :=
        match op with
        | StartsWith => description ++ "start with "
        | EndsWith => description ++ "end with "
        | Contains => description ++ "contain "
        | _ => description
        end in
      description ++ dquote ++ pattern apiParams ++ dquote
  end.

(** The [switch] of [toMatcher]: the variable [regex] stays undefined when
    no case applies, and a failing [RE2JS.compile] throws out of the
    function. *)
Definition compileOperator (rule : IAPIRepoRuleMetadataParameters)
  : Result (option RE2JS) :=
  match operator rule with
  | StartsWith =>
      regex <- RE2JS_compile ("^" ++ RE2JS_quote (pattern rule)) ;;
      Ok (Some regex)
  | EndsWith =>
      regex <- RE2JS_compile (RE2JS_quote (pattern rule) ++ "$") ;;
      Ok (Some regex)
  | Contains =>
      regex <- RE2JS_compile (".*" ++ RE2JS_quote (pattern rule) ++ ".*") ;;
      Ok (Some regex)
  | RegexMatch =>
      regex <- RE2JS_compile (pattern rule) ;;
      Ok (Some regex)
  | OtherOperator _ => Ok None
  end.

Definition toMatcher (rule : option IAPIRepoRuleMetadataParameters)
  : Result RepoRulesMetadataMatcher :=
  match rule with
  | None => Ok (fun _ => false)
  | Some rule =>
      regex <- compileOperator rule ;;
      match regex with
      | Some regex =>
          if negate rule
          then Ok (fun toMatch => negb (RE2JS_find regex toMatch))
          else Ok (fun toMatch => RE2JS_find regex toMatch)
      | None => Ok (fun _ => false)
      end
  end.

(** [rule?.parameters] of a possibly undefined rule. *)
Definition parameters_of (rule : option IAPIRepoRule)
  : option IAPIRepoRuleMetadataParameters :=
  match rule with
  | None => None
  | Some r => parameters r
  end.

Definition toMetadataRule (rule : option IAPIRepoRule)
           (enforced : RepoRuleEnforced)
  : Result (option IRepoRulesMetadataRule) :=
  match rule, parameters_of rule with
  | Some r, Some params =>
      m <- toMatcher (Some params) ;;
      Ok (Some {| enforced := enforced;
                  matcher := m;
                  humanDescription := toHumanDescription params;
                  rulesetId := ruleset_id r |})
  | _, _ => Ok None
  end.

End Matchers.

(* ================================================================== *)
(** ** Rule aggregator *)

Section Aggregator.
Context `{RE : RE2JSApi} `{ST : MetadataRulesApi}.

(** [ruleset.current_user_can_bypass === 'always' ? 'bypass' : true]. *)
Definition enforcementOf (ruleset : IAPIRepoRuleset) : RepoRuleEnforced :=
  if String.eqb (current_user_can_bypass ruleset) "always"
  then Bypass else Enforced.

(** [current !== true ? enforced : true]. *)
Definition mergeEnforced (current enforced : RepoRuleEnforced)
  : RepoRuleEnforced :=
  match current with
  | Enforced => Enforced
  | _ => enforced
  end.

Definition set_basicCommitWarning (info : RepoRulesInfo)
           (v : RepoRuleEnforced) : RepoRulesInfo := {|
  basicCommitWarning := v;
  creationRestricted := creationRestricted info;
  pullRequestRequired := pullRequestRequired info;
  commitMessagePatterns := commitMessagePatterns info;
  commitAuthorEmailPatterns := commitAuthorEmailPatterns info;
  committerEmailPatterns := committerEmailPatterns info;
  branchNamePatterns := branchNamePatterns info
|}.

Definition set_creationRestricted (info : RepoRulesInfo)
           (v : RepoRuleEnforced) : RepoRulesInfo := {|
  basicCommitWarning := basicCommitWarning info;
  creationRestricted := v;
  pullRequestRequired := pullRequestRequired info;
  commitMessagePatterns := commitMessagePatterns info;
  commitAuthorEmailPatterns := commitAuthorEmailPatterns info;
  committerEmailPatterns := committerEmailPatterns info;
  branchNamePatterns := branchNamePatterns info
|}.

Definition set_pullRequestRequired (info : RepoRulesInfo)
           (v : RepoRuleEnforced) : RepoRulesInfo := {|
  basicCommitWarning := basicCommitWarning info;
  creationRestricted := creationRestricted info;
  pullRequestRequired := v;
  commitMessagePatterns := commitMessagePatterns info;
  commitAuthorEmailPatterns := commitAuthorEmailPatterns info;
  committerEmailPatterns := committerEmailPatterns info;
  branchNamePatterns := branchNamePatterns info
|}.

Definition set_commitMessagePatterns (info : RepoRulesInfo)
           (v : RepoRulesMetadataRules) : RepoRulesInfo := {|
  basicCommitWarning := basicCommitWarning info;
  creationRestricted := creationRestricted info;
  pullRequestRequired := pullRequestRequired info;
  commitMessagePatterns := v;
  commitAuthorEmailPatterns := commitAuthorEmailPatterns info;
  committerEmailPatterns := committerEmailPatterns info;
  branchNamePatterns := branchNamePatterns info
|}.

Definition set_commitAuthorEmailPatterns (info : RepoRulesInfo)
           (v : RepoRulesMetadataRules) : RepoRulesInfo := {|
  basicCommitWarning := basicCommitWarning info;
  creationRestricted := creationRestricted info;
  pullRequestRequired := pullRequestRequired info;
  commitMessagePatterns := commitMessagePatterns info;
  commitAuthorEmailPatterns := v;
  committerEmailPatterns := committerEmailPatterns info;
  branchNamePatterns := branchNamePatterns info
|}.

Definition set_committerEmailPatterns (info : RepoRulesInfo)
           (v : RepoRulesMetadataRules) : RepoRulesInfo := {|
  basicCommitWarning := basicCommitWarning info;
  creationRestricted := creationRestricted info;
  pullRequestRequired := pullRequestRequired info;
  commitMessagePatterns := commitMessagePatterns info;
  commitAuthorEmailPatterns := commitAuthorEmailPatterns info;
  committerEmailPatterns := v;
  branchNamePatterns := branchNamePatterns info
|}.

Definition set_branchNamePatterns (info : RepoRulesInfo)
           (v : RepoRulesMetadataRules) : RepoRulesInfo := {|
  basicCommitWarning := basicCommitWarning info;
  creationRestricted := creationRestricted info;
  pullRequestRequired := pullRequestRequired info;
  commitMessagePatterns := commitMessagePatterns info;
  commitAuthorEmailPatterns := commitAuthorEmailPatterns info;
  committerEmailPatterns := committerEmailPatterns info;
  branchNamePatterns := v
|}.

(** One iteration of the loop of [parseRepoRules]: the summary after the
    rule, or the exception that leaves the function. *)
Definition parseRepoRule (rulesets : RulesetMap) (info : RepoRulesInfo)
           (rule : IAPIRepoRule) : Result RepoRulesInfo :=
  match Map_get rulesets (ruleset_id rule) with
  | None => Ok info
  | Some ruleset =>
      let enforced := enforcementOf ruleset in
      match type rule with
      | Update
      | RequiredDeployments
      | RequiredSignatures
      | RequiredStatusChecks =>
          Ok (set_basicCommitWarning info
                (mergeEnforced (basicCommitWarning info) enforced))
      | Creation =>
          Ok (set_creationRestricted info
                (mergeEnforced (creationRestricted info) enforced))
      | PullRequest =>
          Ok (set_pullRequestRequired info
                (mergeEnforced (pullRequestRequired info) enforced))
      | CommitMessagePattern =>
          entry <- toMetadataRule (Some rule) enforced ;;
          Ok (set_commitMessagePatterns info
                (push (commitMessagePatterns info) entry))
      | CommitAuthorEmailPattern =>
          entry <- toMetadataRule (Some rule) enforced ;;
          Ok (set_commitAuthorEmailPatterns info
                (push (commitAuthorEmailPatterns info) entry))
      | CommitterEmailPattern =>
          entry <- toMetadataRule (Some rule) enforced ;;
          Ok (set_committerEmailPatterns info
                (push (committerEmailPatterns info) entry))
      | BranchNamePattern =>
          entry <- toMetadataRule (Some rule) enforced ;;
          Ok (set_branchNamePatterns info
                (push (branchNamePatterns info) entry))
      | OtherRuleType _ => Ok info
      end
  end.

Fixpoint parseLoop (rulesets : RulesetMap) (rules : list IAPIRepoRule)
         (info : RepoRulesInfo) : Result RepoRulesInfo :=
  match rules with
  | [] => Ok info
  | rule :: rest =>
      info' <- parseRepoRule rulesets info rule ;;
      parseLoop rulesets rest info'
  end.

Definition parseRepoRules (rules : list IAPIRepoRule)
           (rulesets : RulesetMap) : Result RepoRulesInfo :=
  parseLoop rulesets rules newRepoRulesInfo.

End Aggregator.

(* ================================================================== *)
(** ** Reference model of [re2js] on a fragment of its syntax *)

(** The fragment: ordinary characters, a backslash before an ASCII
    character that is neither a letter nor a digit, [.], [^], [$], and the
    postfix operators [*], [+], [?] with an optional lazy mark [?].
    Groups, alternation, classes, counted repetition, letter and digit
    escapes are outside the fragment: the model's [compile] rejects them
    like a syntax error, so it is used only at patterns of the fragment.
    Text is ASCII, no flag is set: [.] excludes the line feed, [^] and [$]
    hold at the two ends of the text only. The message of an exception
    is abridged: it names the kind of error, without the prefix and the
    offending operator that [re2js] adds. *)
Module RE2JSModel.

Inductive Atom : Type :=
| Lit (c : ascii)
| AnyChar
| BeginText
| EndText.

Inductive Repeat : Type :=
| Once
| ZeroOrMore
| OneOrMore
| ZeroOrOne.

Definition Regexp : Type := list (Atom * Repeat).

Inductive Token : Type :=
| TAtom (a : Atom)
| TRepeat (q : Repeat).

Definition METACHARACTERS : string := "\.+*?()|[]{}^$".

Fixpoint indexOf (s : string) (c : ascii) : bool :=
  match s with
  | EmptyString => false
  | String c' s' => Ascii.eqb c' c || indexOf s' c
  end.

(** [Utils.quoteMeta]: a backslash before every metacharacter. *)
Fixpoint quoteMeta (s : string) : string :=
  match s with
  | EmptyString => EmptyString
  | String c s' =>
      if indexOf METACHARACTERS c
      then String "\" (String c (quoteMeta s'))
      else String c (quoteMeta s')
  end.

Definition isalnum (c : ascii) : bool :=
  let n := nat_of_ascii c in
  (Nat.leb 48 n && Nat.leb n 57)
  || (Nat.leb 65 n && Nat.leb n 90)
  || (Nat.leb 97 n && Nat.leb n 122).

Definition isASCII (c : ascii) : bool := Nat.ltb (nat_of_ascii c) 128.

Definition unsupported : Exception :=
  RE2JSSyntaxException "pattern outside the modelled fragment".

Definition tokenOf (c : ascii) : Result Token :=
  if Ascii.eqb c "." then Ok (TAtom AnyChar)
  else if Ascii.eqb c "^" then Ok (TAtom BeginText)
  else if Ascii.eqb c "$" then Ok (TAtom EndText)
  else if Ascii.eqb c "*" then Ok (TRepeat ZeroOrMore)
  else if Ascii.eqb c "+" then Ok (TRepeat OneOrMore)
  else if Ascii.eqb c "?" then Ok (TRepeat ZeroOrOne)
  else if indexOf METACHARACTERS c || negb (isASCII c) then Throw unsupported
  else Ok (TAtom (Lit c)).

Fixpoint tokens (s : string) : Result (list Token) :=
  match s with
  | EmptyString => Ok []
  | String "\" EmptyString =>
      Throw (RE2JSSyntaxException "trailing backslash at end of expression")
  | String "\" (String c s') =>
      if isASCII c && negb (isalnum c)
      then ts <- tokens s' ;; Ok (TAtom (Lit c) :: ts)
      else Throw unsupported
  | String c s' =>
      t <- tokenOf c ;;
      ts <- tokens s' ;;
      Ok (t :: ts)
  end.

(** What the parser remembers about the item before the cursor: nothing
    to repeat, a bare atom, an atom with its operator, or an atom whose
    operator already carries a lazy mark. *)
Inductive Last : Type :=
| NoArgument
| BareAtom
| Repeated
| RepeatedLazy.

Definition setRepeat (q : Repeat) (acc : Regexp) : Regexp :=
  match acc with
  | [] => []
  | (a, _) :: acc' => (a, q) :: acc'
  end.

(** The parser keeps the items in reverse. *)
Fixpoint parseTokens (ts : list Token) (acc : Regexp) (last : Last)
  : Result Regexp :=
  match ts with
  | [] => Ok (rev acc)
  | TAtom a :: ts' => parseTokens ts' ((a, Once) :: acc) BareAtom
  | TRepeat q :: ts' =>
      match last with
      | NoArgument =>
          Throw (RE2JSSyntaxException
                   "missing argument to repetition operator")
      | BareAtom => parseTokens ts' (setRepeat q acc) Repeated
      | Repeated =>
          match q with
          | ZeroOrOne => parseTokens ts' acc RepeatedLazy
          | _ => Throw (RE2JSSyntaxException "bad repetition operator")
          end
      | RepeatedLazy =>
          Throw (RE2JSSyntaxException "bad repetition operator")
      end
  end.

Definition compile (s : string) : Result Regexp :=
  ts <- tokens s ;;
  parseTokens ts [] NoArgument.

Definition lineFeed : ascii := ascii_of_nat 10.

Definition consumes (a : Atom) (c : ascii) : bool :=
  match a with
  | Lit c' => Ascii.eqb c' c
  | AnyChar => negb (Ascii.eqb c lineFeed)
  | BeginText => false
  | EndText => false
  end.

(** The matchers are written with a continuation [k] that receives
    whether the cursor is still at the beginning of the text and the rest
    of the text. *)
Definition once (a : Atom) (k : bool -> string -> bool)
           (atStart : bool) (s : string) : bool :=
  match a with
  | BeginText => atStart && k atStart s
  | EndText => String.eqb s EmptyString && k atStart s
  | _ =>
      match s with
      | EmptyString => false
      | String c s' => consumes a c && k false s'
      end
  end.

Fixpoint zeroOrMore (a : Atom) (k : bool -> string -> bool)
         (atStart : bool) (s : string) : bool :=
  k atStart s
  || match s with
     | EmptyString => false
     | String c s' => consumes a c && zeroOrMore a k false s'
     end.

Fixpoint matchHere (r : Regexp) : bool -> string -> bool :=
  match r with
  | [] => fun _ _ => true
  | (a, q) :: r' =>
      let k := matchHere r' in
      match q with
      | Once => once a k
      | ZeroOrMore => zeroOrMore a k
      | OneOrMore => once a (zeroOrMore a k)
      | ZeroOrOne => fun atStart s => k atStart s || once a k atStart s
      end
  end.

(** Unanchored search: some position of the text starts a match. *)
Fixpoint findFrom (r : Regexp) (atStart : bool) (s : string) : bool :=
  matchHere r atStart s
  || match s with
     | EmptyString => false
     | String _ s' => findFrom r false s'
     end.

Definition find (r : Regexp) (s : string) : bool := findFrom r true s.

End RE2JSModel.

#[export] Instance RE2JS_model : RE2JSApi := {|
  RE2JS := RE2JSModel.Regexp;
  RE2JS_compile := RE2JSModel.compile;
  RE2JS_quote := RE2JSModel.quoteMeta;
  RE2JS_find := RE2JSModel.find
|}.

(* ================================================================== *)
(** ** Reference model of the glob dialect on a fragment *)

(** The options of the helper are chosen to reproduce [fnmatch] with the
    path-name flag. The model covers patterns made of ordinary
    characters, [?] and [*]: [?] and [*] never match a slash, nor a
    period that begins a path segment. Classes, escapes, the double
    star and names that end with a slash are outside the fragment, and
    the model is used only at patterns and names of the fragment. *)
Module MinimatchModel.

Definition isSlash (c : ascii) : bool := Ascii.eqb c "/".

Definition startsWithDot (s : string) : bool :=
  match s with
  | String c _ => Ascii.eqb c "."
  | EmptyString => false
  end.

Fixpoint star (k : bool -> string -> bool) (segStart : bool) (name : string)
  : bool :=
  k segStart name
  || match name with
     | EmptyString => false
     | String c name' => negb (isSlash c) && star k false name'
     end.

Fixpoint glob (p : string) : bool -> string -> bool :=
  match p with
  | EmptyString => fun _ name => String.eqb name EmptyString
  | String pc p' =>
      let k := glob p' in
      if Ascii.eqb pc "*"
      then fun segStart name =>
             negb (segStart && startsWithDot name) && star k segStart name
      else if Ascii.eqb pc "?"
      then fun segStart name =>
             match name with
             | EmptyString => false
             | String c name' =>
                 negb (isSlash c)
                 && negb (segStart && Ascii.eqb c ".")
                 && k false name'
             end
      else fun _ name =>
             match name with
             | EmptyString => false
             | String c name' => Ascii.eqb c pc && k (isSlash c) name'
             end
  end.

Definition matchList (names : list string) (p : string)
           (options : MinimatchOptions) : list string :=
  filter (glob p true) names.

End MinimatchModel.

#[export] Instance minimatch_model : Minimatch := {|
  minimatch_match := MinimatchModel.matchList
|}.

(* ================================================================== *)
(** ** A list instance of the summary's pattern lists *)

(** An ordered list that keeps every defined entry it is given. *)
#[export] Instance list_rules : MetadataRulesApi := {|
  RepoRulesMetadataRules := list IRepoRulesMetadataRule;
  newRepoRulesMetadataRules := [];
  push := fun rules entry =>
            match entry with
            | Some e => (rules ++ [e])%list
            | None => rules
            end
|}.

(* ================================================================== *)
(** ** Vocabulary of the properties *)

(** The three categories whose enforcement level the summary merges. *)
Inductive SimpleCategory : Type :=
| BasicCommitWarning
| CreationRestricted
| PullRequestRequired.

Definition SimpleCategory_eqb (a b : SimpleCategory) : bool :=
  match a, b with
  | BasicCommitWarning, BasicCommitWarning => true
  | CreationRestricted, CreationRestricted => true
  | PullRequestRequired, PullRequestRequired => true
  | _, _ => false
  end.

(** The category a rule type is merged into, by the [switch] of
    [parseRepoRules]. *)
Definition categoryOf (t : APIRepoRuleType) : option SimpleCategory :=
  match t with
  | Update | RequiredDeployments | RequiredSignatures
  | RequiredStatusChecks => Some BasicCommitWarning
  | Creation => Some CreationRestricted
  | PullRequest => Some PullRequestRequired
  | _ => None
  end.

Definition isPatternType (t : APIRepoRuleType) : bool :=
  match t with
  | CommitMessagePattern | CommitAuthorEmailPattern
  | CommitterEmailPattern | BranchNamePattern => true
  | _ => false
  end.

Definition levelOf `{ST : MetadataRulesApi} (c : SimpleCategory)
           (info : RepoRulesInfo) : RepoRuleEnforced :=
  match c with
  | BasicCommitWarning => basicCommitWarning info
  | CreationRestricted => creationRestricted info
  | PullRequestRequired => pullRequestRequired info
  end.

(** The ordering enforced > bypass > not present. *)
Definition rank (e : RepoRuleEnforced) : nat :=
  match e with
  | NotPresent => 0
  | Bypass => 1
  | Enforced => 2
  end.

Definition level_le (a b : RepoRuleEnforced) : bool :=
  Nat.leb (rank a) (rank b).

Definition level_max (a b : RepoRuleEnforced) : RepoRuleEnforced :=
  if level_le a b then b else a.

(** What one rule instance brings to a category: the level of its
    ruleset when the ruleset is known and the rule's type belongs to the
    category, nothing otherwise. *)
Definition instanceLevel (rulesets : RulesetMap) (c : SimpleCategory)
           (rule : IAPIRepoRule) : RepoRuleEnforced :=
  match Map_get rulesets (ruleset_id rule), categoryOf (type rule) with
  | Some ruleset, Some c' =>
      if SimpleCategory_eqb c' c then enforcementOf ruleset else NotPresent
  | _, _ => NotPresent
  end.

Definition isRecognized (op : APIRepoRuleMetadataOperator) : bool :=
  match op with
  | OtherOperator _ => false
  | _ => true
  end.

(** The selection test of one ruleset, in the words of the contract:
    the include list matches with keywords and the exclude list does not
    match without them. *)
Definition applies `{MM : Minimatch} (branchName : string)
           (defaultBranchName : option string) (rs : IAPIRepoRuleset)
  : bool :=
  branchNameMatchesPatterns branchName (included_of rs)
                            defaultBranchName true
  && negb (branchNameMatchesPatterns branchName (excluded_of rs)
                                     defaultBranchName false).

Definition targetsNothing (rs : IAPIRepoRuleset) : bool :=
  noPatterns (included_of rs) && noPatterns (excluded_of rs).

(** The description of an entry that [toMetadataRule] returned, if any. *)
Definition descriptionOf (r : Result (option IRepoRulesMetadataRule))
  : option string :=
  match r with
  | Ok (Some entry) => Some (humanDescription entry)
  | _ => None
  end.

(* ================================================================== *)
(** ** Sample data *)

Module Samples.

Definition refs (inc exc : option (list string)) : option RulesetConditions :=
  Some {| ref_name := Some {| include := inc; exclude := exc |} |}.

Definition allButReleases : IAPIRepoRuleset :=
  {| id := 1; current_user_can_bypass := "always";
     conditions := refs (Some ["~ALL"]) (Some ["release/*"]) |}.

Definition defaultOnly : IAPIRepoRuleset :=
  {| id := 2; current_user_can_bypass := "never";
     conditions := refs (Some ["~DEFAULT"]) None |}.

Definition untargeted : IAPIRepoRuleset :=
  {| id := 3; current_user_can_bypass := "never"; conditions := None |}.

Definition rulesets : RulesetMap :=
  [(1%Z, allButReleases); (2%Z, defaultOnly); (3%Z, untargeted)].

Definition simpleRule (t : APIRepoRuleType) (rulesetId : Z) : IAPIRepoRule :=
  {| type := t; ruleset_id := rulesetId; parameters := None |}.

Definition patternRule (t : APIRepoRuleType) (rulesetId : Z)
           (op : APIRepoRuleMetadataOperator) (text : string) (neg : bool)
  : IAPIRepoRule :=
  {| type := t; ruleset_id := rulesetId;
     parameters := Some {| operator := op; pattern := text; negate := neg |}
  |}.

End Samples.

(* ================================================================== *)
(** ** Client-side gate *)

(** The owner of a GitHub repository, with the field
    [useRepoRulesLogic] reads. *)
Module Owner.
Record t : Type := { login : string }.
End Owner.

(** [GitHubRepository], with the fields [useRepoRulesLogic]
    destructures; [isPrivate] stands for the truthiness it tests. *)
Record GitHubRepository : Type := {
  endpoint : string;
  owner : Owner.t;
  isPrivate : bool
}.

(** [Repository]: only its optional GitHub repository matters here. *)
Record Repository : Type := {
  gitHubRepository : option GitHubRepository
}.

(** [Account], with the fields [useRepoRulesLogic] reads; [plan] may
    be missing. *)
Record Account : Type := {
  login : string;
  plan : option string
}.

(** The feature flag and the endpoint capability test are imported from
    other modules of the application. *)
Class RepoRulesGates : Type := {
  enableRepoRulesBeta : bool;
  supportsRepoRules : string -> bool
}.

(** The type guard [isRepositoryWithGitHubRepository] narrows a repository
    to one that carries a GitHub repository. *)
Definition isRepositoryWithGitHubRepository (repository : Repository)
  : bool :=
  match gitHubRepository repository with
  | Some _ => true
  | None => false
  end.

(** [!account.plan || account.plan === 'free']. *)
Definition onFreePlan (account : Account) : bool :=
  match plan account with
  | None => true
  | Some p => String.eqb p EmptyString || String.eqb p "free"
  end.

Definition useRepoRulesLogic `{GT : RepoRulesGates}
           (account : option Account) (repository : option Repository)
  : bool :=
  match account, repository with
  | Some account, Some repository =>
      if negb enableRepoRulesBeta
         || negb (isRepositoryWithGitHubRepository repository)
      then false
      else
        match gitHubRepository repository with
        | None => false
        | Some gh =>
            if negb (supportsRepoRules (endpoint gh)) then false
            else if String.eqb (login account) (Owner.login (owner gh))
                    && onFreePlan account
                    && isPrivate gh
            then false
            else true
        end
  | _, _ => false
  end.

(* ================================================================== *)
(** ** Vocabulary of the further properties *)

(** The four categories that keep a list of entries. *)
Inductive PatternCategory : Type :=
| CommitMessage
| CommitAuthorEmail
| CommitterEmail
| BranchName.

Definition PatternCategory_eqb (a b : PatternCategory) : bool :=
  match a, b with
  | CommitMessage, CommitMessage => true
  | CommitAuthorEmail, CommitAuthorEmail => true
  | CommitterEmail, CommitterEmail => true
  | BranchName, BranchName => true
  | _, _ => false
  end.

Definition patternCategoryOf (t : APIRepoRuleType)
  : option PatternCategory :=
  match t with
  | CommitMessagePattern => Some CommitMessage
  | CommitAuthorEmailPattern => Some CommitAuthorEmail
  | CommitterEmailPattern => Some CommitterEmail
  | BranchNamePattern => Some BranchName
  | _ => None
  end.

Definition listOf `{ST : MetadataRulesApi} (pc : PatternCategory)
           (info : RepoRulesInfo) : RepoRulesMetadataRules :=
  match pc with
  | CommitMessage => commitMessagePatterns info
  | CommitAuthorEmail => commitAuthorEmailPatterns info
  | CommitterEmail => committerEmailPatterns info
  | BranchName => branchNamePatterns info
  end.

(** What one rule hands to [push] on the list of a category: the result
    of [toMetadataRule] when the ruleset is known and the rule's type is
    the category's, nothing otherwise. *)
Definition pushedBy `{RE : RE2JSApi} (rulesets : RulesetMap)
           (pc : PatternCategory) (rule : IAPIRepoRule)
  : list (option IRepoRulesMetadataRule) :=
  match Map_get rulesets (ruleset_id rule), patternCategoryOf (type rule) with
  | Some ruleset, Some pc' =>
      if PatternCategory_eqb pc' pc
      then match toMetadataRule (Some rule) (enforcementOf ruleset) with
           | Ok entry => [entry]
           | Throw _ => []
           end
      else []
  | _, _ => []
  end.

(** Whether the iteration on a rule returns: only a pattern-typed rule
    with a known ruleset reaches [toMatcher]. *)
Definition ruleCompiles `{RE : RE2JSApi} (rulesets : RulesetMap)
           (rule : IAPIRepoRule) : bool :=
  match Map_get rulesets (ruleset_id rule) with
  | None => true
  | Some _ =>
      negb (isPatternType (type rule))
      || completes (toMatcher (parameters rule))
  end.

(** The include list of a ruleset, [undefined] read as empty. *)
Definition includeList (rs : IAPIRepoRuleset) : list string :=
  match included_of rs with Some ps => ps | None => [] end.

Definition excludeList (rs : IAPIRepoRuleset) : list string :=
  match excluded_of rs with Some ps => ps | None => [] end.

Definition mentions (p : string) (ps : list string) : bool :=
  existsb (String.eqb p) ps.

(** A glob pattern without the wildcards [*] and [?]. *)
Fixpoint isLiteralPattern (p : string) : bool :=
  match p with
  | EmptyString => true
  | String c p' =>
      negb (Ascii.eqb c "*" || Ascii.eqb c "?") && isLiteralPattern p'
  end.

(** Text made of ASCII characters only. *)
Fixpoint isASCIIText (s : string) : bool :=
  match s with
  | EmptyString => true
  | String c s' => RE2JSModel.isASCII c && isASCIIText s'
  end.

(** The regular expression and the tokens of a literal text in the model
    of [re2js]: one literal item per character. *)
Fixpoint lits (p : string) : RE2JSModel.Regexp :=
  match p with
  | EmptyString => []
  | String c p' => (RE2JSModel.Lit c, RE2JSModel.Once) :: lits p'
  end.

Fixpoint litTokens (p : string) : list RE2JSModel.Token :=
  match p with
  | EmptyString => []
  | String c p' => RE2JSModel.TAtom (RE2JSModel.Lit c) :: litTokens p'
  end.

(** A regular expression of the model whose match at a position does not
    depend on whether the position is the beginning of the text. *)
Definition startInsensitive (r : RE2JSModel.Regexp) : Prop :=
  forall a b s, RE2JSModel.matchHere r a s = RE2JSModel.matchHere r b s.

(** Sample data for [useRepoRulesLogic]: every switch open, and two
    accounts. *)
Module GateSamples.

Definition openGates : RepoRulesGates := {|
  enableRepoRulesBeta := true;
  supportsRepoRules := fun _ => true
|}.

Definition octocatFree : Account :=
  {| login := "octocat"; plan := Some "free" |}.

Definition octocatPro : Account :=
  {| login := "octocat"; plan := Some "pro" |}.

Definition privateOf (ownerLogin : string) : Repository :=
  {| gitHubRepository :=
       Some {| endpoint := "https://api.github.com";
               owner := {| Owner.login := ownerLogin |};
               isPrivate := true |} |}.

End GateSamples.

(* ================================================================== *)
(** ** The ruleset selector *)

Section SelectorFacts.
Context `{MM : Minimatch}.

Lemma matchesAnyPattern_existsb (b : string) (ps : list string)
      (d : option string) (kw : bool) :
  matchesAnyPattern b ps d kw
  = existsb (fun p => (kw && matchesKeyword p b d) || globMatches b p) ps.
Proof.
  induction ps as [|p ps IH]; simpl; [reflexivity|].
  destruct (kw && matchesKeyword p b d); simpl; [reflexivity|].
  destruct (globMatches b p); simpl; [reflexivity|exact IH].
Qed.

Lemma noPatterns_no_match (b : string) (l : option (list string))
      (d : option string) (kw : bool) :
  noPatterns l = true -> branchNameMatchesPatterns b l d kw = false.
Proof.
  destruct l as [[|p ps]|]; simpl; intros E; try reflexivity; discriminate.
Qed.

Lemma selectLoop_filter (b : string) (d : option string)
      (vs acc : list IAPIRepoRuleset) :
  selectLoop b vs d acc = (acc ++ filter (applies b d) vs)%list.
Proof.
  revert acc; induction vs as [|rs vs IH]; intros acc.
  - simpl. now rewrite app_nil_r.
  - cbn [selectLoop filter]. rewrite !IH.
    generalize (filter (applies b d) vs). intros kept. unfold applies.
    destruct (noPatterns (included_of rs)) eqn:Ei; simpl.
    + rewrite (noPatterns_no_match b _ d true Ei).
      destruct (noPatterns (excluded_of rs)); reflexivity.
    + destruct (branchNameMatchesPatterns b (included_of rs) d true);
        simpl; [|reflexivity].
      destruct (branchNameMatchesPatterns b (excluded_of rs) d false);
        simpl; [reflexivity|].
      rewrite <- app_assoc. reflexivity.
Qed.

Lemma applies_targets (b : string) (d : option string)
      (rs : IAPIRepoRuleset) :
  applies b d rs = true -> targetsNothing rs = false.
Proof.
  unfold applies, targetsNothing. intros E.
  destruct (noPatterns (included_of rs)) eqn:Ei; [|reflexivity].
  rewrite (noPatterns_no_match b _ d true Ei) in E. discriminate.
Qed.

End SelectorFacts.

(** C1. For every branch name, ruleset map and default branch name, the
    selector returns nothing when the branch name is empty or the map is
    empty, and otherwise exactly the rulesets, in the order of the map,
    whose include list matches the branch with keywords enabled and whose
    exclude list does not match it with keywords disabled; a ruleset whose
    two lists are both empty or absent is never among them. *)
Theorem C1_selector_exact `{MM : Minimatch} (branchName : string)
        (rulesets : RulesetMap) (defaultBranchName : option string) :
  getRulesetsApplicableToBranchName branchName rulesets defaultBranchName
  = (if String.eqb branchName EmptyString then []
     else filter (applies branchName defaultBranchName)
                 (Map_values rulesets))
  /\ getRulesetsApplicableToBranchName EmptyString rulesets
                                       defaultBranchName = []
  /\ getRulesetsApplicableToBranchName branchName [] defaultBranchName = []
  /\ forallb (fun rs => negb (targetsNothing rs))
             (getRulesetsApplicableToBranchName branchName rulesets
                                                defaultBranchName) = true.
Proof.
  assert (E : getRulesetsApplicableToBranchName branchName rulesets
                                                defaultBranchName
              = (if String.eqb branchName EmptyString then []
                 else filter (applies branchName defaultBranchName)
                             (Map_values rulesets))).
  { unfold getRulesetsApplicableToBranchName.
    destruct (String.eqb branchName EmptyString); simpl; [reflexivity|].
    destruct rulesets as [|kv m]; [reflexivity|].
    cbn [Map_size length Nat.eqb]. now rewrite selectLoop_filter. }
  split; [exact E|]. split; [reflexivity|].
  split; [unfold getRulesetsApplicableToBranchName;
          now rewrite orb_true_r|].
  rewrite E. destruct (String.eqb branchName EmptyString); [reflexivity|].
  apply forallb_forall. intros rs Hin.
  apply filter_In in Hin. destruct Hin as [_ Ha].
  now rewrite (applies_targets _ _ _ Ha).
Qed.

(** The keyword path in general. With keywords enabled a list that holds
    [~ALL] matches every string. The single pattern [~DEFAULT] matches
    when the default branch name is known, not empty and equal to the
    string; otherwise the loop body goes on to the glob test of the same
    pattern. *)
Lemma keywords_or_glob `{MM : Minimatch} (branchName : string)
        (before after : list string) (known : string) :
  branchNameMatchesPatterns branchName (Some (before ++ "~ALL" :: after)%list)
                            None true = true
  /\ branchNameMatchesPatterns branchName
                               (Some (before ++ "~ALL" :: after)%list)
                               (Some known) true = true
  /\ branchNameMatchesPatterns branchName (Some ["~DEFAULT"])
                               (Some known) true
     = (negb (String.eqb known EmptyString) && String.eqb known branchName)
       || globMatches branchName "~DEFAULT"
  /\ branchNameMatchesPatterns branchName (Some ["~DEFAULT"]) None true
     = globMatches branchName "~DEFAULT".
Proof.
  assert (A : forall d, branchNameMatchesPatterns
                          branchName (Some (before ++ "~ALL" :: after)%list)
                          d true = true).
  { intros d. unfold branchNameMatchesPatterns.
    rewrite matchesAnyPattern_existsb. apply existsb_exists.
    exists "~ALL". split; [apply in_or_app; right; left; reflexivity|].
    reflexivity. }
  repeat split; try apply A.
  - unfold branchNameMatchesPatterns. rewrite matchesAnyPattern_existsb.
    simpl. now rewrite orb_false_r.
  - unfold branchNameMatchesPatterns. rewrite matchesAnyPattern_existsb.
    simpl. now rewrite orb_false_r.
Qed.

(** The text [~DEFAULT] is no branch name, since a reference name holds
    no tilde; handed in as one, it reaches the glob test and is matched
    as a literal. *)
Example default_text_matches_itself :
  branchNameMatchesPatterns (MM := minimatch_model) "~DEFAULT"
                            (Some ["~DEFAULT"]) None true = true
  /\ getRulesetsApplicableToBranchName (MM := minimatch_model) "~DEFAULT"
       [(2%Z, Samples.defaultOnly)] None = [Samples.defaultOnly].
Proof. split; reflexivity. Qed.

(** In the model of the glob dialect a pattern without [*] and [?]
    matches its own text only. *)
Lemma glob_literal (p name : string) (segStart : bool) :
  isLiteralPattern p = true ->
  MinimatchModel.glob p segStart name = String.eqb name p.
Proof.
  revert name segStart; induction p as [|pc p IH]; intros name segStart L.
  - destruct name; reflexivity.
  - cbn [isLiteralPattern] in L.
    apply andb_true_iff in L. destruct L as [Lc Lp].
    apply negb_true_iff, orb_false_iff in Lc. destruct Lc as [Ls Lq].
    cbn [MinimatchModel.glob]. rewrite Ls, Lq.
    destruct name as [|c name]; [reflexivity|].
    cbn [String.eqb]. rewrite (IH _ _ Lp).
    destruct (Ascii.eqb c pc); reflexivity.
Qed.

(** Hence every string other than the text [~DEFAULT] itself, and so
    every branch name, fails the glob test of that pattern in the model. *)
Lemma model_rejects_default_text (branchName : string) :
  branchName <> "~DEFAULT" ->
  globMatches (MM := minimatch_model) branchName "~DEFAULT" = false.
Proof.
  intros Hne. unfold globMatches.
  cbn [minimatch_match minimatch_model MinimatchModel.matchList filter].
  rewrite glob_literal by reflexivity.
  apply String.eqb_neq in Hne. now rewrite Hne.
Qed.

(** C5. Take a branch name: a string that is not empty and that the glob
    engine does not match against the text [~DEFAULT] (a reference name
    holds no tilde). In include-list evaluation, keywords enabled, a list
    that holds [~ALL] matches it unconditionally; the pattern [~DEFAULT]
    matches it if and only if the default branch name is known and equal
    to it; and with an unknown default branch name [~DEFAULT] does not
    match it. *)
Theorem C5_keywords_on_branch_names `{MM : Minimatch} (branchName : string)
        (before after : list string) (defaultBranchName : option string) :
  branchName <> EmptyString ->
  globMatches branchName "~DEFAULT" = false ->
  branchNameMatchesPatterns branchName
                            (Some (before ++ "~ALL" :: after)%list)
                            defaultBranchName true = true
  /\ (branchNameMatchesPatterns branchName (Some ["~DEFAULT"])
                                defaultBranchName true = true
      <-> defaultBranchName = Some branchName)
  /\ branchNameMatchesPatterns branchName (Some ["~DEFAULT"]) None true
     = false.
Proof.
  intros Hne Hglob.
  destruct (keywords_or_glob branchName before after branchName)
    as [A1 [A2 _]].
  split; [|split].
  - destruct defaultBranchName as [known|].
    + apply (keywords_or_glob branchName before after known).
    + exact A1.
  - destruct defaultBranchName as [known|].
    + destruct (keywords_or_glob branchName before after known)
        as [_ [_ [D _]]].
      rewrite D, Hglob, orb_false_r. split.
      * intros E. apply andb_true_iff in E. destruct E as [_ E].
        apply String.eqb_eq in E. now subst.
      * intros E. inversion E; subst known.
        apply String.eqb_neq in Hne.
        now rewrite Hne, String.eqb_refl.
    + destruct (keywords_or_glob branchName before after branchName)
        as [_ [_ [_ D]]].
      rewrite D, Hglob. split; discriminate.
  - destruct (keywords_or_glob branchName before after branchName)
      as [_ [_ [_ D]]].
    now rewrite D.
Qed.

Lemma C5_keywords_on_branch_names_witness :
  branchNameMatchesPatterns (MM := minimatch_model) "main"
                            (Some (["release/*"] ++ "~ALL" :: ["dev"])%list)
                            (Some "main") true = true
  /\ (branchNameMatchesPatterns (MM := minimatch_model) "main"
                                (Some ["~DEFAULT"]) (Some "main") true = true
      <-> Some "main" = Some "main")
  /\ branchNameMatchesPatterns (MM := minimatch_model) "main"
                               (Some ["~DEFAULT"]) None true
     = false.
Proof.
  apply (@C5_keywords_on_branch_names minimatch_model "main"
           ["release/*"] ["dev"] (Some "main")).
  - discriminate.
  - apply model_rejects_default_text. discriminate.
Defined.

(** C6. With keywords disabled, as for every exclude list, the loop is a
    plain disjunction of glob tests: [~ALL] and [~DEFAULT] are handed to
    the glob engine like any other pattern, whatever the default branch
    name; and the selector keeps a ruleset whose include list matches
    exactly when no pattern of its exclude list glob-matches the branch. *)
Theorem C6_no_keywords_in_exclude `{MM : Minimatch} (branchName : string)
        (patterns : list string) (defaultBranchName : option string)
        (key : Z) (rs : IAPIRepoRuleset) :
  branchNameMatchesPatterns branchName (Some patterns)
                            defaultBranchName false
  = existsb (globMatches branchName) patterns
  /\ branchNameMatchesPatterns branchName (Some ["~ALL"])
                               defaultBranchName false
     = globMatches branchName "~ALL"
  /\ branchNameMatchesPatterns branchName (Some ["~DEFAULT"])
                               defaultBranchName false
     = globMatches branchName "~DEFAULT"
  /\ getRulesetsApplicableToBranchName branchName [(key, rs)]
                                       defaultBranchName
     = (if String.eqb branchName EmptyString then []
        else if branchNameMatchesPatterns branchName (included_of rs)
                                          defaultBranchName true
                && negb (existsb (globMatches branchName)
                                 (match excluded_of rs with
                                  | Some ps => ps
                                  | None => []
                                  end))
        then [rs] else []).
Proof.
  assert (A : forall ps, matchesAnyPattern branchName ps
                                           defaultBranchName false
                         = existsb (globMatches branchName) ps).
  { intros ps. rewrite matchesAnyPattern_existsb. reflexivity. }
  split; [apply A|]. split; [|split].
  - unfold branchNameMatchesPatterns. rewrite A. simpl. apply orb_false_r.
  - unfold branchNameMatchesPatterns. rewrite A. simpl. apply orb_false_r.
  - unfold getRulesetsApplicableToBranchName.
    destruct (String.eqb branchName EmptyString); [reflexivity|].
    cbn [orb Map_size length Nat.eqb]. rewrite selectLoop_filter. simpl.
    unfold applies. unfold branchNameMatchesPatterns at 2. rewrite A.
    destruct (_ && _); reflexivity.
Qed.

(* ================================================================== *)
(** ** The rule aggregator *)

Lemma level_le_refl (a : RepoRuleEnforced) : level_le a a = true.
Proof. destruct a; reflexivity. Qed.

Lemma level_max_le (a b x : RepoRuleEnforced) :
  level_le (level_max a b) x = level_le a x && level_le b x.
Proof. destruct a, b, x; reflexivity. Qed.

Lemma fold_level_max_le (l : list RepoRuleEnforced)
      (a x : RepoRuleEnforced) :
  level_le (fold_left level_max l a) x
  = level_le a x && forallb (fun y => level_le y x) l.
Proof.
  revert a; induction l as [|y l IH]; intros a; simpl.
  - now rewrite andb_true_r.
  - rewrite IH, level_max_le, andb_assoc. reflexivity.
Qed.

Lemma fold_level_max_incl (l l' : list RepoRuleEnforced)
      (a : RepoRuleEnforced) :
  incl l l' ->
  level_le (fold_left level_max l a) (fold_left level_max l' a) = true.
Proof.
  intros Hincl.
  pose proof (fold_level_max_le l' a (fold_left level_max l' a)) as Hup.
  rewrite level_le_refl in Hup. symmetry in Hup.
  apply andb_true_iff in Hup. destruct Hup as [Ha Hall].
  rewrite fold_level_max_le, Ha. simpl.
  apply forallb_forall. intros y Hy.
  rewrite forallb_forall in Hall. apply Hall, Hincl, Hy.
Qed.

Lemma mergeEnforced_max (current e : RepoRuleEnforced) :
  e <> NotPresent -> mergeEnforced current e = level_max current e.
Proof.
  destruct current, e; intros Hne; try reflexivity; now elim Hne.
Qed.

Lemma enforcementOf_present (ruleset : IAPIRepoRuleset) :
  enforcementOf ruleset <> NotPresent.
Proof.
  unfold enforcementOf.
  destruct (String.eqb _ _); discriminate.
Qed.

Lemma level_max_absent (a : RepoRuleEnforced) : level_max a NotPresent = a.
Proof. destruct a; reflexivity. Qed.

Lemma SimpleCategory_eqb_refl (c : SimpleCategory) :
  SimpleCategory_eqb c c = true.
Proof. destruct c; reflexivity. Qed.

Section AggregatorFacts.
Context `{RE : RE2JSApi} `{ST : MetadataRulesApi}.

Lemma bind_Ok_inv (A B : Type) (r : Result A) (k : A -> Result B) (b : B) :
  bind r k = Ok b -> exists a, r = Ok a /\ k a = Ok b.
Proof.
  destruct r as [a|e]; simpl; intros E; [eauto|discriminate].
Qed.

(** A rule whose ruleset is unknown leaves the summary as it is. *)
Lemma parseRepoRule_unknown (rulesets : RulesetMap) (info : RepoRulesInfo)
      (rule : IAPIRepoRule) :
  Map_get rulesets (ruleset_id rule) = None ->
  parseRepoRule rulesets info rule = Ok info.
Proof. unfold parseRepoRule. now intros ->. Qed.

(** One iteration raises each category to the maximum of its level and
    of what the rule brings. *)
Lemma parseRepoRule_level (rulesets : RulesetMap) (info info' : RepoRulesInfo)
      (rule : IAPIRepoRule) (c : SimpleCategory) :
  parseRepoRule rulesets info rule = Ok info' ->
  levelOf c info'
  = level_max (levelOf c info) (instanceLevel rulesets c rule).
Proof.
  unfold parseRepoRule, instanceLevel.
  destruct (Map_get rulesets (ruleset_id rule)) as [ruleset|].
  - pose proof (enforcementOf_present ruleset) as Hp.
    destruct (type rule); simpl; intros E;
      try (apply bind_Ok_inv in E; destruct E as [entry [_ E]]);
      inversion E; subst; clear E;
      destruct c; simpl;
      rewrite ?level_max_absent, ?(mergeEnforced_max _ Hp); reflexivity.
  - intros E. inversion E; subst. now rewrite level_max_absent.
Qed.

Lemma parseLoop_level (rulesets : RulesetMap) (rules : list IAPIRepoRule)
      (info info' : RepoRulesInfo) (c : SimpleCategory) :
  parseLoop rulesets rules info = Ok info' ->
  levelOf c info'
  = fold_left level_max (map (instanceLevel rulesets c) rules)
              (levelOf c info).
Proof.
  revert info; induction rules as [|rule rest IH]; intros info; simpl.
  - intros E. now inversion E.
  - intros E. apply bind_Ok_inv in E. destruct E as [mid [E1 E2]].
    rewrite (IH _ E2), (parseRepoRule_level _ _ _ c E1). reflexivity.
Qed.

(** Whether an iteration throws does not depend on the summary so far. *)
Lemma parseRepoRule_completes (rulesets : RulesetMap)
      (info info0 : RepoRulesInfo) (rule : IAPIRepoRule) :
  completes (parseRepoRule rulesets info rule)
  = completes (parseRepoRule rulesets info0 rule).
Proof.
  unfold parseRepoRule.
  destruct (Map_get rulesets (ruleset_id rule)) as [i|]; [|reflexivity].
  destruct (type rule); try reflexivity;
    destruct (toMetadataRule (Some rule) (enforcementOf i)); reflexivity.
Qed.

Lemma parseLoop_completes (rulesets : RulesetMap)
      (rules : list IAPIRepoRule) (info : RepoRulesInfo) :
  completes (parseLoop rulesets rules info)
  = forallb (fun rule =>
               completes (parseRepoRule rulesets newRepoRulesInfo rule))
            rules.
Proof.
  revert info; induction rules as [|rule rest IH]; intros info; simpl.
  - reflexivity.
  - rewrite <- (parseRepoRule_completes rulesets info newRepoRulesInfo rule).
    destruct (parseRepoRule rulesets info rule) as [mid|e]; simpl.
    + apply IH.
    + reflexivity.
Qed.

Lemma parseLoop_app (rulesets : RulesetMap) (l1 l2 : list IAPIRepoRule)
      (info : RepoRulesInfo) :
  parseLoop rulesets (l1 ++ l2)%list info
  = bind (parseLoop rulesets l1 info) (parseLoop rulesets l2).
Proof.
  revert info; induction l1 as [|rule rest IH]; intros info; simpl.
  - reflexivity.
  - destruct (parseRepoRule rulesets info rule) as [mid|e]; simpl.
    + apply IH.
    + reflexivity.
Qed.

Lemma completes_Ok (A : Type) (r : Result A) :
  completes r = true -> exists a, r = Ok a.
Proof. destruct r as [a|e]; simpl; intros E; [eauto|discriminate]. Qed.

(** A rule of a simple category never throws. *)
Lemma parseRepoRule_simple (rulesets : RulesetMap) (info : RepoRulesInfo)
      (rule : IAPIRepoRule) (c : SimpleCategory) :
  categoryOf (type rule) = Some c ->
  completes (parseRepoRule rulesets info rule) = true.
Proof.
  unfold parseRepoRule.
  destruct (Map_get rulesets (ruleset_id rule)); [|reflexivity].
  destruct (type rule); simpl; intros E; try discriminate; reflexivity.
Qed.

Lemma instanceLevel_simple (rulesets : RulesetMap) (rule : IAPIRepoRule)
      (ruleset : IAPIRepoRuleset) (c : SimpleCategory) :
  Map_get rulesets (ruleset_id rule) = Some ruleset ->
  categoryOf (type rule) = Some c ->
  instanceLevel rulesets c rule = enforcementOf ruleset.
Proof.
  unfold instanceLevel. intros -> ->.
  now rewrite SimpleCategory_eqb_refl.
Qed.

End AggregatorFacts.

(** C2. Take two rule instances of one simple category, both with a known
    ruleset, the first ruleset with bypass capability exactly [always] and
    the second with any other capability. In either order of the two
    rules, [parseRepoRules] returns a summary, and its level for the
    category is [Enforced]. *)
Theorem C2_strictest_wins `{RE : RE2JSApi} `{ST : MetadataRulesApi}
        (rulesets : RulesetMap) (r1 r2 : IAPIRepoRule)
        (rs1 rs2 : IAPIRepoRuleset) (c : SimpleCategory) :
  Map_get rulesets (ruleset_id r1) = Some rs1 ->
  Map_get rulesets (ruleset_id r2) = Some rs2 ->
  categoryOf (type r1) = Some c ->
  categoryOf (type r2) = Some c ->
  current_user_can_bypass rs1 = "always" ->
  current_user_can_bypass rs2 <> "always" ->
  (exists info, parseRepoRules [r1; r2] rulesets = Ok info
                /\ levelOf c info = Enforced)
  /\ (exists info, parseRepoRules [r2; r1] rulesets = Ok info
                   /\ levelOf c info = Enforced).
Proof.
  intros G1 G2 T1 T2 B1 B2.
  assert (L1 : instanceLevel rulesets c r1 = Bypass).
  { rewrite (instanceLevel_simple _ _ G1 T1). unfold enforcementOf.
    now rewrite B1. }
  assert (L2 : instanceLevel rulesets c r2 = Enforced).
  { rewrite (instanceLevel_simple _ _ G2 T2). unfold enforcementOf.
    apply String.eqb_neq in B2. now rewrite B2. }
  assert (S1 : forall info, completes (parseRepoRule rulesets info r1) = true)
    by (intros; eapply parseRepoRule_simple; eassumption).
  assert (S2 : forall info, completes (parseRepoRule rulesets info r2) = true)
    by (intros; eapply parseRepoRule_simple; eassumption).
  split.
  - destruct (@completes_Ok _ (parseRepoRules [r1; r2] rulesets))
      as [info E].
    { unfold parseRepoRules. rewrite parseLoop_completes. simpl.
      now rewrite S1, S2. }
    exists info. split; [exact E|].
    unfold parseRepoRules in E.
    rewrite (parseLoop_level _ _ _ c E). simpl. rewrite L1, L2.
    destruct c; reflexivity.
  - destruct (@completes_Ok _ (parseRepoRules [r2; r1] rulesets))
      as [info E].
    { unfold parseRepoRules. rewrite parseLoop_completes. simpl.
      now rewrite S1, S2. }
    exists info. split; [exact E|].
    unfold parseRepoRules in E.
    rewrite (parseLoop_level _ _ _ c E). simpl. rewrite L1, L2.
    destruct c; reflexivity.
Qed.

Lemma C2_strictest_wins_witness :
  (exists info,
      parseRepoRules (RE := RE2JS_model) (ST := list_rules)
                     [Samples.simpleRule Creation 1;
                      Samples.simpleRule Creation 2] Samples.rulesets
      = Ok info
      /\ levelOf CreationRestricted info = Enforced)
  /\ (exists info,
         parseRepoRules (RE := RE2JS_model) (ST := list_rules)
                        [Samples.simpleRule Creation 2;
                         Samples.simpleRule Creation 1] Samples.rulesets
         = Ok info
         /\ levelOf CreationRestricted info = Enforced).
Proof.
  apply (@C2_strictest_wins RE2JS_model list_rules Samples.rulesets
           (Samples.simpleRule Creation 1) (Samples.simpleRule Creation 2)
           Samples.allButReleases Samples.defaultOnly CreationRestricted);
    try reflexivity.
  discriminate.
Defined.

(** C3. Let [rules'] hold every rule instance of [rules] (and possibly
    more, in any position). Whenever [parseRepoRules] returns a summary
    on [rules'], it returns one on [rules] too, and for every simple
    category the level on [rules] is at most the level on [rules'] in the
    ordering enforced > bypass > not present. *)
Theorem C3_merge_monotone `{RE : RE2JSApi} `{ST : MetadataRulesApi}
        (rulesets : RulesetMap) (rules rules' : list IAPIRepoRule)
        (info' : RepoRulesInfo) :
  incl rules rules' ->
  parseRepoRules rules' rulesets = Ok info' ->
  exists info,
    parseRepoRules rules rulesets = Ok info
    /\ forall c, level_le (levelOf c info) (levelOf c info') = true.
Proof.
  intros Hincl E'.
  assert (C' : completes (parseRepoRules rules' rulesets) = true)
    by now rewrite E'.
  unfold parseRepoRules in C'. rewrite parseLoop_completes in C'.
  rewrite forallb_forall in C'.
  destruct (@completes_Ok _ (parseRepoRules rules rulesets)) as [info E].
  { unfold parseRepoRules. rewrite parseLoop_completes.
    apply forallb_forall. intros rule Hin. apply C', Hincl, Hin. }
  exists info. split; [exact E|]. intros c.
  unfold parseRepoRules in E, E'.
  rewrite (parseLoop_level _ _ _ c E), (parseLoop_level _ _ _ c E').
  apply fold_level_max_incl.
  intros y Hy. apply in_map_iff in Hy. destruct Hy as [rule [<- Hin]].
  apply in_map, Hincl, Hin.
Qed.

Lemma C3_merge_monotone_witness :
  exists info,
    parseRepoRules (RE := RE2JS_model) (ST := list_rules)
                   [Samples.simpleRule Update 1] Samples.rulesets = Ok info
    /\ forall c,
        level_le (levelOf c info)
                 (levelOf c
                    {| basicCommitWarning := Enforced;
                       creationRestricted := NotPresent;
                       pullRequestRequired := Bypass;
                       commitMessagePatterns := [];
                       commitAuthorEmailPatterns := [];
                       committerEmailPatterns := [];
                       branchNamePatterns := [] |}) = true.
Proof.
  apply (@C3_merge_monotone RE2JS_model list_rules Samples.rulesets
           [Samples.simpleRule Update 1]
           [Samples.simpleRule PullRequest 1;
            Samples.simpleRule Update 1;
            Samples.simpleRule RequiredSignatures 2]).
  - intros rule [<-|[]]. right. left. reflexivity.
  - reflexivity.
Defined.

(** C4. A rule whose [ruleset_id] is not a key of the ruleset map
    contributes nothing, whatever its type: the iteration on it returns
    the summary unchanged, and taking the rule out of the list changes
    neither the summary [parseRepoRules] returns nor the exception it
    throws. *)
Theorem C4_unknown_ruleset_dropped `{RE : RE2JSApi} `{ST : MetadataRulesApi}
        (rulesets : RulesetMap) (before after : list IAPIRepoRule)
        (rule : IAPIRepoRule) (info : RepoRulesInfo) :
  Map_get rulesets (ruleset_id rule) = None ->
  parseRepoRule rulesets info rule = Ok info
  /\ parseRepoRules (before ++ rule :: after)%list rulesets
     = parseRepoRules (before ++ after)%list rulesets.
Proof.
  intros G. split; [now apply parseRepoRule_unknown|].
  unfold parseRepoRules. rewrite !parseLoop_app.
  destruct (parseLoop rulesets before newRepoRulesInfo) as [mid|e]; simpl;
    [|reflexivity].
  now rewrite (parseRepoRule_unknown _ _ _ G).
Qed.

Lemma C4_unknown_ruleset_dropped_witness :
  parseRepoRule (RE := RE2JS_model) (ST := list_rules) Samples.rulesets
                newRepoRulesInfo
                (Samples.patternRule CommitMessagePattern 9 RegexMatch "*"
                                     false)
  = Ok newRepoRulesInfo
  /\ parseRepoRules (RE := RE2JS_model) (ST := list_rules)
       ([Samples.simpleRule Creation 1]
          ++ Samples.patternRule CommitMessagePattern 9 RegexMatch "*" false
          :: [Samples.simpleRule Update 2])%list Samples.rulesets
     = parseRepoRules (RE := RE2JS_model) (ST := list_rules)
         ([Samples.simpleRule Creation 1]
            ++ [Samples.simpleRule Update 2])%list Samples.rulesets.
Proof.
  apply (@C4_unknown_ruleset_dropped RE2JS_model list_rules Samples.rulesets
           [Samples.simpleRule Creation 1] [Samples.simpleRule Update 2]
           (Samples.patternRule CommitMessagePattern 9 RegexMatch "*" false)
           newRepoRulesInfo).
  reflexivity.
Defined.

(** C7, as the code has it. No handler surrounds compilation. When the
    rules before it are aggregated without an exception and the loop
    reaches a pattern-typed rule with a known ruleset whose regex-match
    pattern [RE2JS.compile] rejects, the exception leaves
    [parseRepoRules]: no summary is returned, whatever rules follow. *)
Theorem C7_compile_failure_propagates `{RE : RE2JSApi} `{ST : MetadataRulesApi}
        (rulesets : RulesetMap) (before after : list IAPIRepoRule)
        (rule : IAPIRepoRule) (ruleset : IAPIRepoRuleset)
        (params : IAPIRepoRuleMetadataParameters) (e : Exception) :
  completes (parseRepoRules before rulesets) = true ->
  Map_get rulesets (ruleset_id rule) = Some ruleset ->
  isPatternType (type rule) = true ->
  parameters rule = Some params ->
  operator params = RegexMatch ->
  RE2JS_compile (pattern params) = Throw e ->
  parseRepoRules (before ++ rule :: after)%list rulesets = Throw e.
Proof.
  intros Cb G T P O E.
  unfold parseRepoRules in *. rewrite parseLoop_app.
  destruct (parseLoop rulesets before newRepoRulesInfo) as [mid|e'];
    [|discriminate].
  cbn [bind parseLoop].
  assert (M : forall enf, toMetadataRule (Some rule) enf = Throw e).
  { intros enf. unfold toMetadataRule, parameters_of. rewrite P.
    unfold toMatcher, compileOperator. rewrite O, E. reflexivity. }
  unfold parseRepoRule. rewrite G.
  destruct (type rule); try discriminate; rewrite M; reflexivity.
Qed.

Lemma C7_compile_failure_propagates_witness :
  parseRepoRules (RE := RE2JS_model) (ST := list_rules)
    ([Samples.simpleRule Creation 2]
       ++ Samples.patternRule CommitMessagePattern 1 RegexMatch "*" false
       :: [Samples.simpleRule PullRequest 2])%list Samples.rulesets
  = Throw (RE2JSSyntaxException "missing argument to repetition operator").
Proof.
  apply (@C7_compile_failure_propagates RE2JS_model list_rules
           Samples.rulesets [Samples.simpleRule Creation 2]
           [Samples.simpleRule PullRequest 2]
           (Samples.patternRule CommitMessagePattern 1 RegexMatch "*" false)
           Samples.allButReleases
           {| operator := RegexMatch; pattern := "*"; negate := false |});
    reflexivity.
Defined.

(** C7 fails as stated: on a list whose first rule carries the malformed
    regular expression [*], [parseRepoRules] does not complete, and the
    pull-request rule that follows is never evaluated. *)
Lemma C7_malformed_regex_counterexample :
  completes
    (parseRepoRules (RE := RE2JS_model) (ST := list_rules)
       [Samples.patternRule CommitMessagePattern 1 RegexMatch "*" false;
        Samples.simpleRule PullRequest 2] Samples.rulesets) = false.
Proof. reflexivity. Qed.

(** C8, as the code has it. Compilation never throws for a rule without
    parameters or with an unrecognized operator. Without parameters no
    entry is built, hence no matcher and no description, and [toMatcher]
    on absent parameters is the always-false matcher. With an
    unrecognized operator an entry is built: its matcher is false on
    every candidate, and its description is the template without a verb,
    [must], then [not] when the rule is negated, then the quoted
    pattern. *)
Theorem C8_inert_rules `{RE : RE2JSApi}
        (level : RepoRuleEnforced) (name text : string) (neg : bool)
        (t : APIRepoRuleType) (rulesetId : Z) (candidate : string) :
  toMetadataRule (Some {| type := t; ruleset_id := rulesetId;
                          parameters := None |}) level = Ok None
  /\ toMetadataRule None level = Ok None
  /\ (exists m, toMatcher None = Ok m /\ m candidate = false)
  /\ (exists m,
         toMatcher (Some {| operator := OtherOperator name;
                            pattern := text; negate := neg |}) = Ok m
         /\ m candidate = false)
  /\ (exists entry,
         toMetadataRule
           (Some {| type := t; ruleset_id := rulesetId;
                    parameters := Some {| operator := OtherOperator name;
                                          pattern := text;
                                          negate := neg |} |}) level
         = Ok (Some entry)
         /\ matcher entry candidate = false
         /\ humanDescription entry
            = "must " ++ (if neg then "not " else EmptyString)
                      ++ dquote ++ text ++ dquote).
Proof.
  split; [|split; [|split; [|split]]].
  - reflexivity.
  - reflexivity.
  - eexists. split; reflexivity.
  - eexists. split; reflexivity.
  - eexists. split; [reflexivity|]. split; [reflexivity|].
    destruct neg; reflexivity.
Qed.

(** C8 fails as stated: for an operator the helper does not know, a
    description is produced all the same. *)
Lemma C8_description_counterexample :
  descriptionOf
    (toMetadataRule (RE := RE2JS_model)
       (Some (Samples.patternRule BranchNamePattern 1
                                  (OtherOperator "glob") "feature" false))
       Enforced)
  = Some ("must " ++ dquote ++ "feature" ++ dquote).
Proof. reflexivity. Qed.

(** C9. For each of the four recognized operators and every pattern, the
    two compilations, with and without [negate], share their fate: either
    both throw the same exception, or both return a matcher, and on every
    candidate string the plain matcher answers the negation of the
    negated one. *)
Theorem C9_negation `{RE : RE2JSApi} (op : APIRepoRuleMetadataOperator)
        (text : string) :
  isRecognized op = true ->
  (exists m mneg,
      toMatcher (Some {| operator := op; pattern := text;
                         negate := false |}) = Ok m
      /\ toMatcher (Some {| operator := op; pattern := text;
                            negate := true |}) = Ok mneg
      /\ forall x, m x = negb (mneg x))
  \/ (exists e,
         toMatcher (Some {| operator := op; pattern := text;
                            negate := false |}) = Throw e
         /\ toMatcher (Some {| operator := op; pattern := text;
                               negate := true |}) = Throw e).
Proof.
  intros R. unfold toMatcher, compileOperator.
  destruct op; try discriminate; cbn [operator pattern negate];
    match goal with
    | |- context [RE2JS_compile ?s] =>
        destruct (RE2JS_compile s) as [regex|e]
    end; cbn [bind];
    solve [ left; eexists; eexists; split; [reflexivity|];
            split; [reflexivity|];
            intros x; cbv beta; symmetry; apply negb_involutive
          | right; eexists; split; reflexivity ].
Qed.

Lemma C9_negation_witness :
  (exists m mneg,
      toMatcher (RE := RE2JS_model)
                (Some {| operator := EndsWith; pattern := "@example.com";
                         negate := false |}) = Ok m
      /\ toMatcher (RE := RE2JS_model)
                   (Some {| operator := EndsWith; pattern := "@example.com";
                            negate := true |}) = Ok mneg
      /\ forall x, m x = negb (mneg x))
  \/ (exists e,
         toMatcher (RE := RE2JS_model)
                   (Some {| operator := EndsWith; pattern := "@example.com";
                            negate := false |}) = Throw e
         /\ toMatcher (RE := RE2JS_model)
                      (Some {| operator := EndsWith;
                               pattern := "@example.com";
                               negate := true |}) = Throw e).
Proof.
  apply (@C9_negation RE2JS_model EndsWith "@example.com").
  reflexivity.
Defined.

(* ================================================================== *)
(** ** Empty patterns in the model of [re2js] *)

Lemma find_BeginText (x : string) :
  RE2JSModel.find [(RE2JSModel.BeginText, RE2JSModel.Once)] x = true.
Proof. destruct x; reflexivity. Qed.

Lemma findFrom_EndText (atStart : bool) (x : string) :
  RE2JSModel.findFrom [(RE2JSModel.EndText, RE2JSModel.Once)] atStart x
  = true.
Proof.
  revert atStart; induction x as [|c x IH]; intros atStart.
  - reflexivity.
  - cbn [RE2JSModel.findFrom]. rewrite IH. apply orb_true_r.
Qed.

Lemma zeroOrMore_accepting (a : RE2JSModel.Atom)
      (k : bool -> string -> bool) (atStart : bool) (x : string) :
  k atStart x = true -> RE2JSModel.zeroOrMore a k atStart x = true.
Proof.
  intros K. destruct x; cbn [RE2JSModel.zeroOrMore]; now rewrite K.
Qed.

Lemma find_AnyAny (x : string) :
  RE2JSModel.find [(RE2JSModel.AnyChar, RE2JSModel.ZeroOrMore);
                   (RE2JSModel.AnyChar, RE2JSModel.ZeroOrMore)] x = true.
Proof.
  unfold RE2JSModel.find.
  assert (M : RE2JSModel.matchHere
                [(RE2JSModel.AnyChar, RE2JSModel.ZeroOrMore);
                 (RE2JSModel.AnyChar, RE2JSModel.ZeroOrMore)] true x = true).
  { cbn [RE2JSModel.matchHere].
    apply zeroOrMore_accepting, zeroOrMore_accepting. reflexivity. }
  destruct x; cbn [RE2JSModel.findFrom]; now rewrite M.
Qed.

(** C10. With the empty pattern text, the non-negated matcher of each of
    the operators starts-with, ends-with and contains is compiled without
    an exception and answers [true] on every candidate string. The regular
    expressions built are [^], [$] and [.*.*], evaluated in the model of
    [re2js]. *)
Theorem C10_empty_pattern_matches_all (candidate : string) :
  (exists m,
      toMatcher (RE := RE2JS_model)
                (Some {| operator := StartsWith; pattern := EmptyString;
                         negate := false |}) = Ok m
      /\ m candidate = true)
  /\ (exists m,
         toMatcher (RE := RE2JS_model)
                   (Some {| operator := EndsWith; pattern := EmptyString;
                            negate := false |}) = Ok m
         /\ m candidate = true)
  /\ (exists m,
         toMatcher (RE := RE2JS_model)
                   (Some {| operator := Contains; pattern := EmptyString;
                            negate := false |}) = Ok m
         /\ m candidate = true).
Proof.
  split; [|split]; eexists; (split; [reflexivity|]); cbv beta.
  - apply find_BeginText.
  - apply findFrom_EndText.
  - apply find_AnyAny.
Qed.

(* ================================================================== *)
(** ** The end-to-end scenarios on the reference models *)

Example scenario_release_excluded :
  map id (getRulesetsApplicableToBranchName
            (MM := minimatch_model) "release/1.0" Samples.rulesets
            (Some "main")) = []
  /\ map id (getRulesetsApplicableToBranchName
               (MM := minimatch_model) "main" Samples.rulesets
               (Some "main")) = [1%Z; 2%Z]
  /\ map id (getRulesetsApplicableToBranchName
               (MM := minimatch_model) "feature/x" Samples.rulesets
               (Some "main")) = [1%Z].
Proof. repeat split. Qed.

Example scenario_negated_suffix :
  match parseRepoRules (RE := RE2JS_model) (ST := list_rules)
          [Samples.patternRule CommitAuthorEmailPattern 2 EndsWith
                               "@example.com" true] Samples.rulesets with
  | Ok info =>
      map (fun entry => (matcher entry "user@other.com",
                         matcher entry "user@example.com",
                         enforced entry))
          (commitAuthorEmailPatterns info)
  | Throw _ => []
  end = [(true, false, Enforced)].
Proof. reflexivity. Qed.

Example scenario_prefix :
  match parseRepoRules (RE := RE2JS_model) (ST := list_rules)
          [Samples.patternRule CommitMessagePattern 1 StartsWith
                               "JIRA-" false] Samples.rulesets with
  | Ok info =>
      map (fun entry => (matcher entry "JIRA-123: fix",
                         matcher entry "fix bug",
                         enforced entry))
          (commitMessagePatterns info)
  | Throw _ => []
  end = [(true, false, Bypass)].
Proof. reflexivity. Qed.

(* ================================================================== *)
(** ** Further properties of the ruleset selector *)

Lemma existsb_agree (A : Type) (f g : A -> bool) (l : list A) :
  (forall x, In x l -> f x = g x) -> existsb f l = existsb g l.
Proof.
  induction l as [|x l IH]; simpl; intros E; [reflexivity|].
  rewrite (E x (or_introl eq_refl)), IH; [reflexivity|].
  intros y Hy. apply E. now right.
Qed.

Section SelectorMore.
Context `{MM : Minimatch}.

Lemma selector_as_filter (b : string) (m : RulesetMap) (d : option string) :
  getRulesetsApplicableToBranchName b m d
  = if String.eqb b EmptyString then []
    else filter (applies b d) (Map_values m).
Proof.
  unfold getRulesetsApplicableToBranchName.
  destruct (String.eqb b EmptyString); [reflexivity|].
  destruct m as [|kv m]; [reflexivity|].
  cbn [orb Map_size length Nat.eqb]. now rewrite selectLoop_filter.
Qed.

Lemma selector_In (b : string) (m : RulesetMap) (d : option string)
      (rs : IAPIRepoRuleset) :
  In rs (getRulesetsApplicableToBranchName b m d)
  <-> String.eqb b EmptyString = false
      /\ In rs (Map_values m) /\ applies b d rs = true.
Proof.
  rewrite selector_as_filter.
  destruct (String.eqb b EmptyString); simpl.
  - split; [intros []|intros [E _]; discriminate].
  - rewrite filter_In. tauto.
Qed.

Lemma patterns_as_existsb (b : string) (l : option (list string))
      (d : option string) (kw : bool) :
  branchNameMatchesPatterns b l d kw
  = existsb (fun p => (kw && matchesKeyword p b d) || globMatches b p)
            (match l with Some ps => ps | None => [] end).
Proof. apply matchesAnyPattern_existsb. Qed.

Lemma patterns_without_keywords (b : string) (l : option (list string))
      (d : option string) :
  branchNameMatchesPatterns b l d false
  = existsb (globMatches b) (match l with Some ps => ps | None => [] end).
Proof.
  rewrite patterns_as_existsb. apply existsb_agree. reflexivity.
Qed.

Lemma mentions_In (p : string) (ps : list string) :
  mentions p ps = true <-> In p ps.
Proof.
  unfold mentions. rewrite existsb_exists. split.
  - intros [q [Hin E]]. apply String.eqb_eq in E. now subst.
  - intros Hin. exists p. split; [exact Hin|apply String.eqb_refl].
Qed.

End SelectorMore.

(** X1. Every ruleset is judged on its own: selecting from two maps put
    end to end gives the two selections put end to end, in that order. *)
Theorem selector_concat `{MM : Minimatch} (branchName : string)
        (m1 m2 : RulesetMap) (defaultBranchName : option string) :
  getRulesetsApplicableToBranchName branchName (m1 ++ m2)%list
                                    defaultBranchName
  = (getRulesetsApplicableToBranchName branchName m1 defaultBranchName
     ++ getRulesetsApplicableToBranchName branchName m2 defaultBranchName
    )%list.
Proof.
  rewrite !selector_as_filter.
  destruct (String.eqb branchName EmptyString); [reflexivity|].
  unfold Map_values. now rewrite map_app, filter_app.
Qed.

(** X2. The default branch name matters only to rulesets that list
    [~DEFAULT]: when no include list of the map holds that pattern, the
    selection is the same for every default branch name, known or not. *)
Theorem selector_ignores_default `{MM : Minimatch} (branchName : string)
        (m : RulesetMap) (d d' : option string) :
  forallb (fun rs => negb (mentions "~DEFAULT" (includeList rs)))
          (Map_values m) = true ->
  getRulesetsApplicableToBranchName branchName m d
  = getRulesetsApplicableToBranchName branchName m d'.
Proof.
  intros Hno. rewrite !selector_as_filter.
  destruct (String.eqb branchName EmptyString); [reflexivity|].
  apply filter_ext_in. intros rs Hin.
  rewrite forallb_forall in Hno. specialize (Hno rs Hin).
  apply negb_true_iff in Hno.
  unfold applies. rewrite !patterns_without_keywords.
  f_equal. rewrite !patterns_as_existsb.
  apply existsb_agree. intros p Hp.
  fold (includeList rs) in Hp.
  unfold matchesKeyword.
  destruct (String.eqb p "~DEFAULT") eqn:E; [|reflexivity].
  apply String.eqb_eq in E. subst p.
  apply mentions_In in Hp. congruence.
Qed.

Lemma selector_ignores_default_witness :
  getRulesetsApplicableToBranchName
    (MM := minimatch_model) "main"
    [(1%Z, Samples.allButReleases); (3%Z, Samples.untargeted)] (Some "main")
  = getRulesetsApplicableToBranchName
      (MM := minimatch_model) "main"
      [(1%Z, Samples.allButReleases); (3%Z, Samples.untargeted)] None.
Proof.
  apply (@selector_ignores_default minimatch_model "main"
           [(1%Z, Samples.allButReleases); (3%Z, Samples.untargeted)]
           (Some "main") None).
  reflexivity.
Defined.

(** X3. Exclusion wins: a ruleset one of whose exclude patterns
    glob-matches the branch name is never selected, whatever its include
    list holds, [~ALL] included. *)
Theorem selector_exclusion_wins `{MM : Minimatch} (branchName : string)
        (m : RulesetMap) (defaultBranchName : option string)
        (rs : IAPIRepoRuleset) :
  existsb (globMatches branchName) (excludeList rs) = true ->
  ~ In rs (getRulesetsApplicableToBranchName branchName m
                                             defaultBranchName).
Proof.
  intros Hex Hin. apply selector_In in Hin. destruct Hin as [_ [_ Ha]].
  unfold applies in Ha. rewrite patterns_without_keywords in Ha.
  fold (excludeList rs) in Ha. rewrite Hex in Ha.
  now rewrite andb_false_r in Ha.
Qed.

Lemma selector_exclusion_wins_witness :
  ~ In Samples.allButReleases
       (getRulesetsApplicableToBranchName
          (MM := minimatch_model) "release/2"
          Samples.rulesets (Some "main")).
Proof.
  apply (@selector_exclusion_wins minimatch_model "release/2"
           Samples.rulesets (Some "main") Samples.allButReleases).
  reflexivity.
Defined.

(** X4. A ruleset of the map that lists [~ALL] and none of whose exclude
    patterns glob-matches is selected for every branch name that is not
    empty, whatever the default branch name. *)
Theorem selector_all_keyword `{MM : Minimatch} (branchName : string)
        (m : RulesetMap) (defaultBranchName : option string)
        (rs : IAPIRepoRuleset) :
  branchName <> EmptyString ->
  In rs (Map_values m) ->
  mentions "~ALL" (includeList rs) = true ->
  existsb (globMatches branchName) (excludeList rs) = false ->
  In rs (getRulesetsApplicableToBranchName branchName m defaultBranchName).
Proof.
  intros Hne Hin Hall Hex. apply selector_In.
  split; [now apply String.eqb_neq|]. split; [exact Hin|].
  unfold applies. rewrite patterns_without_keywords.
  fold (excludeList rs). rewrite Hex, andb_true_r.
  rewrite patterns_as_existsb. fold (includeList rs).
  apply existsb_exists.
  exists "~ALL". split; [now apply mentions_In|reflexivity].
Qed.

Lemma selector_all_keyword_witness :
  In Samples.allButReleases
     (getRulesetsApplicableToBranchName
        (MM := minimatch_model) "feature/x" Samples.rulesets None).
Proof.
  apply (@selector_all_keyword minimatch_model "feature/x"
           Samples.rulesets None Samples.allButReleases).
  - discriminate.
  - left. reflexivity.
  - reflexivity.
  - reflexivity.
Defined.

(** X5. The order of the patterns and the early exit of the loop do not
    show in the answer: a list put together from two lists matches exactly
    when one of the two matches, and an absent list matches nothing. *)
Theorem patterns_concat `{MM : Minimatch} (branchName : string)
        (ps qs : list string) (defaultBranchName : option string)
        (matchKeywords : bool) :
  branchNameMatchesPatterns branchName (Some (ps ++ qs)%list)
                            defaultBranchName matchKeywords
  = branchNameMatchesPatterns branchName (Some ps)
                              defaultBranchName matchKeywords
    || branchNameMatchesPatterns branchName (Some qs)
                                 defaultBranchName matchKeywords
  /\ branchNameMatchesPatterns branchName None
                               defaultBranchName matchKeywords = false.
Proof.
  split; [|reflexivity].
  rewrite !patterns_as_existsb. apply existsb_app.
Qed.

(** X6. Keywords only add matches: a pattern list that matches a branch
    name with keywords disabled matches it with keywords enabled. *)
Theorem patterns_keywords_only_add `{MM : Minimatch} (branchName : string)
        (patterns : option (list string))
        (defaultBranchName : option string) :
  branchNameMatchesPatterns branchName patterns defaultBranchName false
  = true ->
  branchNameMatchesPatterns branchName patterns defaultBranchName true
  = true.
Proof.
  rewrite patterns_without_keywords, patterns_as_existsb, !existsb_exists.
  intros [p [Hin E]]. exists p. split; [exact Hin|].
  rewrite E. apply orb_true_r.
Qed.

Lemma patterns_keywords_only_add_witness :
  branchNameMatchesPatterns (MM := minimatch_model) "release/1.0"
                            (Some ["main"; "release/*"]) None true = true.
Proof.
  apply (@patterns_keywords_only_add minimatch_model "release/1.0"
           (Some ["main"; "release/*"]) None).
  reflexivity.
Defined.

(* ================================================================== *)
(** ** Further properties of the rule aggregator *)

Lemma fold_level_max_Enforced (l : list RepoRuleEnforced)
      (a : RepoRuleEnforced) :
  fold_left level_max l a = Enforced <-> a = Enforced \/ In Enforced l.
Proof.
  revert a; induction l as [|y l IH]; intros a; simpl.
  - tauto.
  - rewrite IH. destruct a, y; cbv [level_max level_le rank Nat.leb];
      intuition congruence.
Qed.

Lemma level_max_NotPresent (a b : RepoRuleEnforced) :
  level_max a b = NotPresent <-> a = NotPresent /\ b = NotPresent.
Proof.
  destruct a, b; cbv [level_max level_le rank Nat.leb];
    split; try intros [E F]; try intros E; try discriminate; auto.
Qed.

Lemma fold_level_max_NotPresent (l : list RepoRuleEnforced)
      (a : RepoRuleEnforced) :
  fold_left level_max l a = NotPresent
  <-> a = NotPresent /\ forall y, In y l -> y = NotPresent.
Proof.
  revert a; induction l as [|y l IH]; intros a; simpl.
  - intuition.
  - rewrite IH, level_max_NotPresent. split.
    + intros [[Ea Ey] F]. split; [exact Ea|].
      intros z [<-|Hz]; [exact Ey|now apply F].
    + intros [Ea F]. split; [split; [exact Ea|apply F; now left]|].
      intros z Hz. apply F. now right.
Qed.

Lemma level_le_antisym (a b : RepoRuleEnforced) :
  level_le a b = true -> level_le b a = true -> a = b.
Proof. destruct a, b; cbv; congruence. Qed.

Lemma SimpleCategory_eqb_eq (a b : SimpleCategory) :
  SimpleCategory_eqb a b = true <-> a = b.
Proof. destruct a, b; simpl; split; congruence. Qed.

Lemma PatternCategory_eqb_eq (a b : PatternCategory) :
  PatternCategory_eqb a b = true <-> a = b.
Proof. destruct a, b; simpl; split; congruence. Qed.

Lemma instanceLevel_Enforced (rulesets : RulesetMap) (c : SimpleCategory)
      (rule : IAPIRepoRule) :
  instanceLevel rulesets c rule = Enforced
  <-> exists rs, Map_get rulesets (ruleset_id rule) = Some rs
                 /\ categoryOf (type rule) = Some c
                 /\ current_user_can_bypass rs <> "always".
Proof.
  unfold instanceLevel, enforcementOf.
  destruct (Map_get rulesets (ruleset_id rule)) as [rs|].
  - destruct (categoryOf (type rule)) as [c'|].
    + destruct (SimpleCategory_eqb c' c) eqn:Ec.
      * apply SimpleCategory_eqb_eq in Ec. subst c'.
        destruct (String.eqb (current_user_can_bypass rs) "always") eqn:Eb.
        -- apply String.eqb_eq in Eb.
           split; [discriminate|].
           intros [rs' [G [_ B]]]. inversion G; subst. contradiction.
        -- apply String.eqb_neq in Eb.
           split; [|reflexivity]. intros _. exists rs. auto.
      * split; [discriminate|].
        intros [rs' [_ [T _]]]. inversion T; subst.
        now rewrite SimpleCategory_eqb_refl in Ec.
    + split; [discriminate|]. intros [rs' [_ [T _]]]. discriminate.
  - split; [discriminate|]. intros [rs' [G _]]. discriminate.
Qed.

Lemma instanceLevel_NotPresent (rulesets : RulesetMap) (c : SimpleCategory)
      (rule : IAPIRepoRule) :
  instanceLevel rulesets c rule = NotPresent
  <-> (categoryOf (type rule) = Some c ->
       Map_get rulesets (ruleset_id rule) = None).
Proof.
  unfold instanceLevel.
  destruct (Map_get rulesets (ruleset_id rule)) as [rs|]; [|tauto].
  pose proof (enforcementOf_present rs) as Hp.
  destruct (categoryOf (type rule)) as [c'|].
  - destruct (SimpleCategory_eqb c' c) eqn:Ec.
    + apply SimpleCategory_eqb_eq in Ec. subst c'.
      split; [contradiction|]. intros E. now specialize (E eq_refl).
    + split; [|reflexivity]. intros _ T. inversion T; subst.
      now rewrite SimpleCategory_eqb_refl in Ec.
  - split; [|reflexivity]. discriminate.
Qed.

Section AggregatorMore.
Context `{RE : RE2JSApi} `{ST : MetadataRulesApi}.

Lemma parseRepoRule_ruleCompiles (rulesets : RulesetMap)
      (info : RepoRulesInfo) (rule : IAPIRepoRule) :
  completes (parseRepoRule rulesets info rule) = ruleCompiles rulesets rule.
Proof.
  unfold parseRepoRule, ruleCompiles.
  destruct (Map_get rulesets (ruleset_id rule)) as [rs|]; [|reflexivity].
  assert (M : completes (toMetadataRule (Some rule) (enforcementOf rs))
              = completes (toMatcher (parameters rule))).
  { unfold toMetadataRule, parameters_of.
    destruct (parameters rule) as [params|]; [|reflexivity].
    destruct (toMatcher (Some params)); reflexivity. }
  destruct (type rule); try reflexivity; cbn [isPatternType negb orb];
    rewrite <- M;
    destruct (toMetadataRule (Some rule) (enforcementOf rs)); reflexivity.
Qed.

Lemma parseRepoRule_list (rulesets : RulesetMap)
      (info info' : RepoRulesInfo) (rule : IAPIRepoRule)
      (pc : PatternCategory) :
  parseRepoRule rulesets info rule = Ok info' ->
  listOf pc info' = fold_left push (pushedBy rulesets pc rule) (listOf pc info).
Proof.
  unfold parseRepoRule, pushedBy.
  destruct (Map_get rulesets (ruleset_id rule)) as [rs|].
  - destruct (type rule); cbn [patternCategoryOf]; intros E;
      try (inversion E; subst; destruct pc; reflexivity);
      destruct (toMetadataRule (Some rule) (enforcementOf rs)) as [entry|e];
      try discriminate; cbn [bind] in E; inversion E; subst;
      destruct pc; reflexivity.
  - intros E. inversion E; subst. reflexivity.
Qed.

Lemma parseLoop_list (rulesets : RulesetMap) (rules : list IAPIRepoRule)
      (info info' : RepoRulesInfo) (pc : PatternCategory) :
  parseLoop rulesets rules info = Ok info' ->
  listOf pc info'
  = fold_left push (flat_map (pushedBy rulesets pc) rules) (listOf pc info).
Proof.
  revert info; induction rules as [|rule rest IH]; intros info; simpl.
  - intros E. now inversion E.
  - intros E. apply bind_Ok_inv in E. destruct E as [mid [E1 E2]].
    rewrite fold_left_app, (IH _ E2), (parseRepoRule_list _ _ _ pc E1).
    reflexivity.
Qed.

End AggregatorMore.

(** X7. When [parseRepoRules] returns a summary, a simple category is
    [Enforced] exactly when some rule of the category has a known ruleset
    whose bypass capability is not [always], and it is [NotPresent]
    exactly when every rule of the category has an unknown ruleset; rules
    of other types never count. *)
Theorem aggregate_level_meaning `{RE : RE2JSApi} `{ST : MetadataRulesApi}
        (rulesets : RulesetMap) (rules : list IAPIRepoRule)
        (info : RepoRulesInfo) (c : SimpleCategory) :
  parseRepoRules rules rulesets = Ok info ->
  (levelOf c info = Enforced
   <-> exists rule rs,
        In rule rules
        /\ Map_get rulesets (ruleset_id rule) = Some rs
        /\ categoryOf (type rule) = Some c
        /\ current_user_can_bypass rs <> "always")
  /\ (levelOf c info = NotPresent
      <-> forall rule,
           In rule rules -> categoryOf (type rule) = Some c ->
           Map_get rulesets (ruleset_id rule) = None).
Proof.
  intros E. unfold parseRepoRules in E.
  rewrite (parseLoop_level _ _ _ c E).
  replace (levelOf c newRepoRulesInfo) with NotPresent
    by (destruct c; reflexivity).
  split.
  - rewrite fold_level_max_Enforced, in_map_iff. split.
    + intros [F|[rule [L Hin]]]; [discriminate|].
      apply instanceLevel_Enforced in L. destruct L as [rs L].
      exists rule, rs. tauto.
    + intros [rule [rs [Hin L]]]. right. exists rule.
      split; [|exact Hin]. apply instanceLevel_Enforced. now exists rs.
  - rewrite fold_level_max_NotPresent. split.
    + intros [_ F] rule Hin. apply instanceLevel_NotPresent.
      apply F, in_map, Hin.
    + intros F. split; [reflexivity|]. intros y Hy.
      apply in_map_iff in Hy. destruct Hy as [rule [<- Hin]].
      apply instanceLevel_NotPresent. now apply F.
Qed.

Lemma aggregate_level_meaning_witness :
  (levelOf CreationRestricted
           {| basicCommitWarning := Bypass;
              creationRestricted := Enforced;
              pullRequestRequired := NotPresent;
              commitMessagePatterns := [];
              commitAuthorEmailPatterns := [];
              committerEmailPatterns := [];
              branchNamePatterns := [] |} = Enforced
   <-> exists rule rs,
        In rule [Samples.simpleRule Update 1;
                 Samples.simpleRule Creation 2;
                 Samples.simpleRule PullRequest 9]
        /\ Map_get Samples.rulesets (ruleset_id rule) = Some rs
        /\ categoryOf (type rule) = Some CreationRestricted
        /\ current_user_can_bypass rs <> "always")
  /\ (levelOf CreationRestricted
              {| basicCommitWarning := Bypass;
                 creationRestricted := Enforced;
                 pullRequestRequired := NotPresent;
                 commitMessagePatterns := [];
                 commitAuthorEmailPatterns := [];
                 committerEmailPatterns := [];
                 branchNamePatterns := [] |} = NotPresent
      <-> forall rule,
           In rule [Samples.simpleRule Update 1;
                    Samples.simpleRule Creation 2;
                    Samples.simpleRule PullRequest 9] ->
           categoryOf (type rule) = Some CreationRestricted ->
           Map_get Samples.rulesets (ruleset_id rule) = None).
Proof.
  apply (@aggregate_level_meaning RE2JS_model list_rules Samples.rulesets
           [Samples.simpleRule Update 1;
            Samples.simpleRule Creation 2;
            Samples.simpleRule PullRequest 9]).
  reflexivity.
Defined.

(** X8. Only the set of rule instances matters to the levels: two lists
    with the same members, in any order and with any repetitions, make
    [parseRepoRules] return or throw together, and when it returns, every
    simple category has the same level on both. *)
Theorem aggregate_order_irrelevant `{RE : RE2JSApi} `{ST : MetadataRulesApi}
        (rulesets : RulesetMap) (rules rules' : list IAPIRepoRule) :
  incl rules rules' ->
  incl rules' rules ->
  completes (parseRepoRules rules rulesets)
  = completes (parseRepoRules rules' rulesets)
  /\ forall info info' c,
      parseRepoRules rules rulesets = Ok info ->
      parseRepoRules rules' rulesets = Ok info' ->
      levelOf c info = levelOf c info'.
Proof.
  intros I1 I2. split.
  - unfold parseRepoRules. rewrite !parseLoop_completes.
    apply eq_true_iff_eq. rewrite !forallb_forall.
    split; intros F rule Hin; apply F; auto.
  - intros info info' c E E'. unfold parseRepoRules in E, E'.
    rewrite (parseLoop_level _ _ _ c E), (parseLoop_level _ _ _ c E').
    apply level_le_antisym; apply fold_level_max_incl;
      intros y Hy; apply in_map_iff in Hy; destruct Hy as [rule [<- Hin]];
      apply in_map; auto.
Qed.

Lemma aggregate_order_irrelevant_witness :
  completes
    (parseRepoRules (RE := RE2JS_model) (ST := list_rules)
       [Samples.simpleRule Creation 1; Samples.simpleRule Creation 2]
       Samples.rulesets)
  = completes
      (parseRepoRules (RE := RE2JS_model) (ST := list_rules)
         [Samples.simpleRule Creation 2; Samples.simpleRule Creation 1;
          Samples.simpleRule Creation 2]
         Samples.rulesets)
  /\ forall info info' c,
      parseRepoRules (RE := RE2JS_model) (ST := list_rules)
        [Samples.simpleRule Creation 1; Samples.simpleRule Creation 2]
        Samples.rulesets = Ok info ->
      parseRepoRules (RE := RE2JS_model) (ST := list_rules)
        [Samples.simpleRule Creation 2; Samples.simpleRule Creation 1;
         Samples.simpleRule Creation 2]
        Samples.rulesets = Ok info' ->
      levelOf c info = levelOf c info'.
Proof.
  apply (@aggregate_order_irrelevant RE2JS_model list_rules Samples.rulesets
           [Samples.simpleRule Creation 1; Samples.simpleRule Creation 2]
           [Samples.simpleRule Creation 2; Samples.simpleRule Creation 1;
            Samples.simpleRule Creation 2]).
  - intros rule [<-|[<-|[]]]; simpl; auto.
  - intros rule [<-|[<-|[<-|[]]]]; simpl; auto.
Defined.

(** X9. [parseRepoRules] returns a summary exactly when [toMatcher]
    returns on the parameters of every pattern-typed rule whose ruleset
    is known; rules of the other types and rules with an unknown ruleset
    can never make it throw. *)
Theorem aggregate_completes_iff `{RE : RE2JSApi} `{ST : MetadataRulesApi}
        (rulesets : RulesetMap) (rules : list IAPIRepoRule) :
  completes (parseRepoRules rules rulesets)
  = forallb (ruleCompiles rulesets) rules.
Proof.
  unfold parseRepoRules. rewrite parseLoop_completes.
  induction rules as [|rule rest IH]; simpl; [reflexivity|].
  now rewrite IH, parseRepoRule_ruleCompiles.
Qed.

(** X10. When [parseRepoRules] returns a summary, each of its four
    pattern lists is the fresh list after one [push] per rule of the
    list's type whose ruleset is known, in the order of the rules, each
    with the result of [toMetadataRule] on that rule; nothing else is
    ever pushed. *)
Theorem aggregate_pattern_lists `{RE : RE2JSApi} `{ST : MetadataRulesApi}
        (rulesets : RulesetMap) (rules : list IAPIRepoRule)
        (info : RepoRulesInfo) (pc : PatternCategory) :
  parseRepoRules rules rulesets = Ok info ->
  listOf pc info
  = fold_left push (flat_map (pushedBy rulesets pc) rules)
              newRepoRulesMetadataRules.
Proof.
  intros E. unfold parseRepoRules in E.
  rewrite (parseLoop_list _ _ _ pc E). destruct pc; reflexivity.
Qed.

Lemma aggregate_pattern_lists_witness :
  exists info,
    parseRepoRules (RE := RE2JS_model) (ST := list_rules)
      [Samples.simpleRule Creation 1;
       Samples.patternRule CommitMessagePattern 2 StartsWith "JIRA-" false;
       Samples.patternRule CommitMessagePattern 8 Contains "wip" true;
       Samples.patternRule BranchNamePattern 1 EndsWith "-tmp" true;
       Samples.patternRule CommitMessagePattern 1 EndsWith "." false]
      Samples.rulesets = Ok info
    /\ listOf CommitMessage info
       = fold_left push
           (flat_map
              (pushedBy (RE := RE2JS_model) Samples.rulesets CommitMessage)
              [Samples.simpleRule Creation 1;
               Samples.patternRule CommitMessagePattern 2 StartsWith
                                   "JIRA-" false;
               Samples.patternRule CommitMessagePattern 8 Contains
                                   "wip" true;
               Samples.patternRule BranchNamePattern 1 EndsWith
                                   "-tmp" true;
               Samples.patternRule CommitMessagePattern 1 EndsWith
                                   "." false])
           newRepoRulesMetadataRules
    /\ map (fun entry => (rulesetId entry, enforced entry,
                          matcher entry "JIRA-1 fix."))
           (listOf (ST := list_rules) CommitMessage info)
       = [(2%Z, Enforced, true); (1%Z, Bypass, true)].
Proof.
  eexists. split; [reflexivity|]. split; [|reflexivity].
  apply (@aggregate_pattern_lists RE2JS_model list_rules Samples.rulesets
           [Samples.simpleRule Creation 1;
            Samples.patternRule CommitMessagePattern 2 StartsWith
                                "JIRA-" false;
            Samples.patternRule CommitMessagePattern 8 Contains "wip" true;
            Samples.patternRule BranchNamePattern 1 EndsWith "-tmp" true;
            Samples.patternRule CommitMessagePattern 1 EndsWith "." false]).
  reflexivity.
Defined.

(** X11. Every entry handed to [push] comes from a rule of the list's
    type that has parameters and a known ruleset: it names that ruleset,
    carries the ruleset's level, [Bypass] or [Enforced], and the
    description of the rule's parameters. *)
Theorem pushed_entry_origin `{RE : RE2JSApi} (rulesets : RulesetMap)
        (rules : list IAPIRepoRule) (pc : PatternCategory)
        (entry : IRepoRulesMetadataRule) :
  In (Some entry) (flat_map (pushedBy rulesets pc) rules) ->
  exists rule rs params,
    In rule rules
    /\ Map_get rulesets (ruleset_id rule) = Some rs
    /\ patternCategoryOf (type rule) = Some pc
    /\ parameters rule = Some params
    /\ rulesetId entry = ruleset_id rule
    /\ enforced entry = enforcementOf rs
    /\ enforced entry <> NotPresent
    /\ humanDescription entry = toHumanDescription params.
Proof.
  intros Hin. apply in_flat_map in Hin. destruct Hin as [rule [Hr Hp]].
  unfold pushedBy in Hp.
  destruct (Map_get rulesets (ruleset_id rule)) as [rs|] eqn:G;
    [|destruct Hp].
  destruct (patternCategoryOf (type rule)) as [pc'|] eqn:T; [|destruct Hp].
  destruct (PatternCategory_eqb pc' pc) eqn:Ec; [|destruct Hp].
  apply PatternCategory_eqb_eq in Ec. subst pc'.
  unfold toMetadataRule, parameters_of in Hp.
  destruct (parameters rule) as [params|] eqn:P.
  - destruct (toMatcher (Some params)) as [m|e]; cbn [bind] in Hp;
      [|destruct Hp].
    destruct Hp as [Hp|[]]. inversion Hp; subst entry. cbn.
    exists rule, rs, params. repeat split; auto.
    apply enforcementOf_present.
  - destruct Hp as [Hp|[]]. discriminate.
Qed.

Lemma pushed_entry_origin_witness :
  exists rule rs params,
    In rule [Samples.patternRule BranchNamePattern 2 Contains "wip" true]
    /\ Map_get Samples.rulesets (ruleset_id rule) = Some rs
    /\ patternCategoryOf (type rule) = Some BranchName
    /\ parameters rule = Some params
    /\ rulesetId
         {| enforced := Enforced;
            matcher :=
              fun toMatch =>
                negb (RE2JSModel.find
                        [(RE2JSModel.AnyChar, RE2JSModel.ZeroOrMore);
                         (RE2JSModel.Lit "w", RE2JSModel.Once);
                         (RE2JSModel.Lit "i", RE2JSModel.Once);
                         (RE2JSModel.Lit "p", RE2JSModel.Once);
                         (RE2JSModel.AnyChar, RE2JSModel.ZeroOrMore)]
                        toMatch);
            humanDescription :=
              "must not contain " ++ dquote ++ "wip" ++ dquote;
            rulesetId := 2 |} = ruleset_id rule
    /\ Enforced = enforcementOf rs
    /\ Enforced <> NotPresent
    /\ "must not contain " ++ dquote ++ "wip" ++ dquote
       = toHumanDescription params.
Proof.
  apply (@pushed_entry_origin RE2JS_model Samples.rulesets
           [Samples.patternRule BranchNamePattern 2 Contains "wip" true]
           BranchName
           {| enforced := Enforced;
              matcher :=
                fun toMatch =>
                  negb (RE2JSModel.find
                          [(RE2JSModel.AnyChar, RE2JSModel.ZeroOrMore);
                           (RE2JSModel.Lit "w", RE2JSModel.Once);
                           (RE2JSModel.Lit "i", RE2JSModel.Once);
                           (RE2JSModel.Lit "p", RE2JSModel.Once);
                           (RE2JSModel.AnyChar, RE2JSModel.ZeroOrMore)]
                          toMatch);
              humanDescription :=
                "must not contain " ++ dquote ++ "wip" ++ dquote;
              rulesetId := 2 |}).
  left. reflexivity.
Defined.

(* ================================================================== *)
(** ** Descriptions *)

Lemma append_inv_last (p q : string) (c : ascii) :
  p ++ String c EmptyString = q ++ String c EmptyString -> p = q.
Proof.
  revert q; induction p as [|a p IH]; intros [|b q]; simpl; intros E.
  - reflexivity.
  - inversion E as [[Ec Et]]. destruct q; discriminate.
  - inversion E as [[Ec Et]]. destruct p; discriminate.
  - inversion E; subst. f_equal. now apply IH.
Qed.

(** X12. Descriptions tell rules apart: two parameter records with
    recognized operators and the same description have the same
    operator, the same pattern text and the same negate flag. *)
Theorem description_injective (p q : IAPIRepoRuleMetadataParameters) :
  isRecognized (operator p) = true ->
  isRecognized (operator q) = true ->
  toHumanDescription p = toHumanDescription q ->
  p = q.
Proof.
  destruct p as [op1 t1 n1], q as [op2 t2 n2].
  cbn [operator]. intros R1 R2 E.
  destruct op1; try discriminate R1; destruct op2; try discriminate R2;
    destruct n1, n2; cbn in E; try discriminate E;
    inversion E as [E']; apply append_inv_last in E'; now subst.
Qed.

Lemma description_injective_witness :
  {| operator := EndsWith; pattern := "@example.com"; negate := true |}
  = {| operator := EndsWith; pattern := "@example.com"; negate := true |}.
Proof.
  apply (@description_injective
           {| operator := EndsWith; pattern := "@example.com";
              negate := true |}
           {| operator := EndsWith; pattern := "@example.com";
              negate := true |});
    reflexivity.
Defined.

(* ================================================================== *)
(** ** The client-side gate *)

(** X13. [useRepoRulesLogic] answers [true] only when an account and a
    repository are given, the feature flag is on, the repository carries
    a GitHub repository whose endpoint supports rules, and the account
    is not on the free plan, or on no plan, on a private repository of
    its own. *)
Theorem gate_open_only_if `{GT : RepoRulesGates} (account : option Account)
        (repository : option Repository) :
  useRepoRulesLogic account repository = true ->
  enableRepoRulesBeta = true
  /\ exists a r gh,
      account = Some a
      /\ repository = Some r
      /\ gitHubRepository r = Some gh
      /\ supportsRepoRules (endpoint gh) = true
      /\ (login a <> Owner.login (owner gh)
          \/ onFreePlan a = false
          \/ isPrivate gh = false).
Proof.
  unfold useRepoRulesLogic, isRepositoryWithGitHubRepository.
  destruct account as [a|]; [|discriminate].
  destruct repository as [r|]; [|discriminate].
  destruct enableRepoRulesBeta; [|discriminate].
  destruct (gitHubRepository r) as [gh|] eqn:G; [|discriminate].
  cbn [negb orb].
  destruct (supportsRepoRules (endpoint gh)) eqn:Es; [|discriminate].
  cbn [negb].
  intros E. split; [reflexivity|]. exists a, r, gh.
  do 4 (split; [first [reflexivity|assumption]|]).
  destruct (String.eqb (login a) (Owner.login (owner gh))) eqn:El.
  - destruct (onFreePlan a); [|right; left; reflexivity].
    destruct (isPrivate gh); [discriminate E|right; right; reflexivity].
  - left. now apply String.eqb_neq.
Qed.

Lemma gate_open_only_if_witness :
  enableRepoRulesBeta (RepoRulesGates := GateSamples.openGates) = true
  /\ exists a r gh,
      Some GateSamples.octocatPro = Some a
      /\ Some (GateSamples.privateOf "octocat") = Some r
      /\ gitHubRepository r = Some gh
      /\ supportsRepoRules (RepoRulesGates := GateSamples.openGates)
                           (endpoint gh) = true
      /\ (login a <> Owner.login (owner gh)
          \/ onFreePlan a = false
          \/ isPrivate gh = false).
Proof.
  apply (@gate_open_only_if GateSamples.openGates
           (Some GateSamples.octocatPro)
           (Some (GateSamples.privateOf "octocat"))).
  reflexivity.
Defined.

(** X14. The plan of the account matters only for its own private
    repositories: for a repository that is public or owned by another
    login, two accounts with the same login get the same answer whatever
    their plans. *)
Theorem gate_plan_irrelevant `{GT : RepoRulesGates} (a a' : Account)
        (r : Repository) (gh : GitHubRepository) :
  login a = login a' ->
  gitHubRepository r = Some gh ->
  login a <> Owner.login (owner gh) \/ isPrivate gh = false ->
  useRepoRulesLogic (Some a) (Some r) = useRepoRulesLogic (Some a') (Some r).
Proof.
  intros L G H. unfold useRepoRulesLogic, isRepositoryWithGitHubRepository.
  rewrite G, <- L.
  destruct H as [H|H].
  - apply String.eqb_neq in H. rewrite H. reflexivity.
  - rewrite H, !andb_false_r. reflexivity.
Qed.

Lemma gate_plan_irrelevant_witness :
  useRepoRulesLogic (GT := GateSamples.openGates)
                    (Some GateSamples.octocatFree)
                    (Some (GateSamples.privateOf "github"))
  = useRepoRulesLogic (GT := GateSamples.openGates)
                      (Some GateSamples.octocatPro)
                      (Some (GateSamples.privateOf "github")).
Proof.
  apply (@gate_plan_irrelevant GateSamples.openGates
           GateSamples.octocatFree GateSamples.octocatPro
           (GateSamples.privateOf "github")
           {| endpoint := "https://api.github.com";
              owner := {| Owner.login := "github" |};
              isPrivate := true |}).
  - reflexivity.
  - reflexivity.
  - left. discriminate.
Defined.

(** X15. On its own private repository an account on the free plan, or
    with no plan recorded, is always turned away, whatever the feature
    flag and the endpoint say. *)
Theorem gate_closed_for_own_private_free `{GT : RepoRulesGates}
        (a : Account) (r : Repository) (gh : GitHubRepository) :
  gitHubRepository r = Some gh ->
  login a = Owner.login (owner gh) ->
  onFreePlan a = true ->
  isPrivate gh = true ->
  useRepoRulesLogic (Some a) (Some r) = false.
Proof.
  intros G L F P. unfold useRepoRulesLogic, isRepositoryWithGitHubRepository.
  rewrite G, L, F, P, String.eqb_refl.
  destruct enableRepoRulesBeta; cbn; [|reflexivity].
  destruct (supportsRepoRules (endpoint gh)); reflexivity.
Qed.

Lemma gate_closed_for_own_private_free_witness :
  useRepoRulesLogic (GT := GateSamples.openGates)
                    (Some GateSamples.octocatFree)
                    (Some (GateSamples.privateOf "octocat")) = false.
Proof.
  apply (@gate_closed_for_own_private_free GateSamples.openGates
           GateSamples.octocatFree (GateSamples.privateOf "octocat")
           {| endpoint := "https://api.github.com";
              owner := {| Owner.login := "octocat" |};
              isPrivate := true |});
    reflexivity.
Defined.

(* ================================================================== *)
(** ** Literal operators in the model of [re2js] *)

Module LiteralFacts.
Import RE2JSModel.

Lemma append_nil_r (s : string) : s ++ EmptyString = s.
Proof. induction s as [|c s IH]; simpl; [reflexivity|now rewrite IH]. Qed.

Lemma append_assoc (a b c : string) : (a ++ b) ++ c = a ++ b ++ c.
Proof. induction a as [|x a IH]; simpl; [reflexivity|now rewrite IH]. Qed.

Lemma meta_not_alnum (c : ascii) :
  indexOf METACHARACTERS c = true -> isalnum c = false.
Proof.
  destruct c as [[] [] [] [] [] [] [] []]; vm_compute; congruence.
Qed.

Lemma tokenOf_plain (c : ascii) :
  indexOf METACHARACTERS c = false -> isASCII c = true ->
  tokenOf c = Ok (TAtom (Lit c)).
Proof.
  destruct c as [[] [] [] [] [] [] [] []]; vm_compute; congruence.
Qed.

Lemma plain_not_backslash (c : ascii) :
  indexOf METACHARACTERS c = false -> Ascii.eqb c "\" = false.
Proof.
  destruct c as [[] [] [] [] [] [] [] []]; vm_compute; congruence.
Qed.

Lemma tokens_plain (c : ascii) (s : string) :
  Ascii.eqb c "\" = false ->
  tokens (String c s)
  = (t <- tokenOf c ;; ts <- tokens s ;; Ok (t :: ts)).
Proof.
  destruct c as [[] [] [] [] [] [] [] []]; intros E;
    first [reflexivity|vm_compute in E; discriminate E].
Qed.

(** Quoting makes every character of the text a literal token. *)
Lemma tokens_quoteMeta (p s : string) :
  isASCIIText p = true ->
  tokens (quoteMeta p ++ s)
  = (ts <- tokens s ;; Ok (litTokens p ++ ts)%list).
Proof.
  induction p as [|c p IH]; intros A.
  - simpl. destruct (tokens s); reflexivity.
  - cbn [isASCIIText] in A. apply andb_true_iff in A. destruct A as [Ac Ap].
    cbn [quoteMeta]. destruct (indexOf METACHARACTERS c) eqn:M.
    + change (String "\" (String c (quoteMeta p)) ++ s)
        with (String "\" (String c (quoteMeta p ++ s))).
      cbn [tokens]. rewrite Ac, (meta_not_alnum _ M). cbn [andb negb].
      rewrite (IH Ap). destruct (tokens s); reflexivity.
    + change (String c (quoteMeta p) ++ s)
        with (String c (quoteMeta p ++ s)).
      rewrite (tokens_plain _ _ (plain_not_backslash _ M)).
      rewrite (tokenOf_plain _ M Ac), (IH Ap).
      destruct (tokens s); reflexivity.
Qed.

Lemma parseTokens_lits (p : string) (acc : Regexp) (last : Last) :
  parseTokens (litTokens p) acc last = Ok (rev acc ++ lits p)%list.
Proof.
  revert acc last; induction p as [|c p IH]; intros acc last; simpl.
  - now rewrite app_nil_r.
  - rewrite IH. simpl. now rewrite <- app_assoc.
Qed.

Lemma parseTokens_lits_then (p : string) (a : Atom) (ts : list Token)
      (acc : Regexp) (last : Last) :
  parseTokens (litTokens p ++ TAtom a :: ts)%list acc last
  = parseTokens ts ((a, Once) :: rev (lits p) ++ acc)%list BareAtom.
Proof.
  revert acc last; induction p as [|c p IH]; intros acc last; simpl.
  - reflexivity.
  - rewrite IH. now rewrite <- app_assoc.
Qed.

(** The three regular expressions the helper builds from a quoted text. *)
Lemma compile_startsWith (p : string) :
  isASCIIText p = true ->
  compile ("^" ++ quoteMeta p) = Ok ((BeginText, Once) :: lits p).
Proof.
  intros A. unfold compile.
  change ("^" ++ quoteMeta p) with (String "^" (quoteMeta p)).
  rewrite tokens_plain by reflexivity.
  rewrite <- (append_nil_r (quoteMeta p)), tokens_quoteMeta by exact A.
  cbn. rewrite app_nil_r. apply (parseTokens_lits p [(BeginText, Once)]).
Qed.

Lemma compile_endsWith (p : string) :
  isASCIIText p = true ->
  compile (quoteMeta p ++ "$") = Ok (lits p ++ [(EndText, Once)])%list.
Proof.
  intros A. unfold compile. rewrite tokens_quoteMeta by exact A. cbn.
  rewrite parseTokens_lits_then. cbn.
  now rewrite app_nil_r, rev_involutive.
Qed.

Lemma compile_contains (p : string) :
  isASCIIText p = true ->
  compile (".*" ++ quoteMeta p ++ ".*")
  = Ok ((AnyChar, ZeroOrMore) :: lits p ++ [(AnyChar, ZeroOrMore)])%list.
Proof.
  intros A. unfold compile.
  change (".*" ++ quoteMeta p ++ ".*")
    with (String "." (String "*" (quoteMeta p ++ ".*"))).
  rewrite tokens_plain by reflexivity. cbn.
  rewrite tokens_quoteMeta by exact A. cbn.
  rewrite parseTokens_lits_then. cbn.
  now rewrite rev_app_distr, rev_involutive.
Qed.

End LiteralFacts.

Module MatchFacts.
Import RE2JSModel.

Lemma insensitive_nil : startInsensitive [].
Proof. intros a b s. reflexivity. Qed.

Lemma insensitive_end : startInsensitive [(EndText, Once)].
Proof. intros a b s. reflexivity. Qed.

Lemma zeroOrMore_insensitive (x : Atom) (k : bool -> string -> bool) :
  (forall a b s, k a s = k b s) ->
  forall a b s, zeroOrMore x k a s = zeroOrMore x k b s.
Proof.
  intros K a b s. destruct s; cbn [zeroOrMore]; now rewrite (K a b).
Qed.

Lemma insensitive_star (x : Atom) (r : Regexp) :
  startInsensitive r -> startInsensitive ((x, ZeroOrMore) :: r).
Proof.
  intros K a b s. cbn [matchHere]. now apply zeroOrMore_insensitive.
Qed.

Lemma insensitive_lits (p : string) (r : Regexp) :
  startInsensitive r -> startInsensitive (lits p ++ r)%list.
Proof.
  intros K. destruct p as [|c p]; [exact K|].
  intros a b s. reflexivity.
Qed.

(** A literal text matches at a position exactly when the rest of the
    candidate begins with it. *)
Lemma matchHere_lits (p : string) (r : Regexp) :
  startInsensitive r ->
  forall a x,
    matchHere (lits p ++ r)%list a x = true
    <-> exists rest, x = p ++ rest /\ matchHere r false rest = true.
Proof.
  intros K. induction p as [|c p IH]; intros a x.
  - cbn [lits app]. split.
    + intros M. exists x. split; [reflexivity|]. now rewrite (K false a).
    + intros [rest [-> M]]. now rewrite (K a false).
  - cbn [lits app matchHere once]. destruct x as [|c' x].
    + split; [discriminate|]. intros [rest [E _]]. discriminate.
    + cbn [consumes]. rewrite andb_true_iff, IH, Ascii.eqb_eq. split.
      * intros [-> [rest [-> M]]]. exists rest. auto.
      * intros [rest [E M]]. inversion E; subst. split; [reflexivity|].
        exists rest. auto.
Qed.

(** Unanchored search succeeds exactly when some suffix of the candidate
    starts a match. *)
Lemma findFrom_iff (r : Regexp) :
  startInsensitive r ->
  forall a x,
    findFrom r a x = true
    <-> exists pre suf, x = pre ++ suf /\ matchHere r false suf = true.
Proof.
  intros K a x. revert a. induction x as [|c x IH]; intros a.
  - cbn [findFrom]. rewrite orb_false_r. split.
    + intros M. exists EmptyString, EmptyString.
      split; [reflexivity|]. now rewrite (K false a).
    + intros [pre [suf [E M]]]. destruct pre; [|discriminate].
      simpl in E. subst suf. now rewrite (K a false).
  - cbn [findFrom]. rewrite orb_true_iff, IH. split.
    + intros [M|[pre [suf [-> M]]]].
      * exists EmptyString, (String c x).
        split; [reflexivity|]. now rewrite (K false a).
      * exists (String c pre), suf. auto.
    + intros [pre [suf [E M]]]. destruct pre as [|c' pre].
      * simpl in E. subst suf. left. now rewrite (K a false).
      * inversion E; subst. right. exists pre, suf. auto.
Qed.

Lemma zeroOrMore_inv (x : Atom) (k : bool -> string -> bool)
      (a : bool) (s : string) :
  zeroOrMore x k a s = true ->
  exists mid rest a', s = mid ++ rest /\ k a' rest = true.
Proof.
  revert a; induction s as [|c s IH]; intros a; cbn [zeroOrMore];
    rewrite orb_true_iff; intros [M|M].
  - exists EmptyString, EmptyString, a. auto.
  - discriminate.
  - exists EmptyString, (String c s), a. auto.
  - apply andb_true_iff in M. destruct M as [_ M].
    destruct (IH _ M) as [mid [rest [a' [-> M']]]].
    exists (String c mid), rest, a'. auto.
Qed.

Lemma findFrom_begin (r : Regexp) (s : string) :
  findFrom ((BeginText, Once) :: r) false s = false.
Proof. induction s as [|c s IH]; cbn; [reflexivity|exact IH]. Qed.

Lemma find_startsWith (p x : string) :
  find ((BeginText, Once) :: lits p) x = true
  <-> exists rest, x = p ++ rest.
Proof.
  unfold find.
  assert (F : findFrom ((BeginText, Once) :: lits p) true x
              = matchHere (lits p ++ [])%list true x).
  { rewrite app_nil_r.
    destruct x as [|c x]; cbn [findFrom matchHere once andb].
    - apply orb_false_r.
    - rewrite findFrom_begin. apply orb_false_r. }
  rewrite F, (matchHere_lits p insensitive_nil). split.
  - intros [rest [E _]]. now exists rest.
  - intros [rest E]. exists rest. split; [exact E|reflexivity].
Qed.

Lemma find_endsWith (p x : string) :
  find (lits p ++ [(EndText, Once)])%list x = true
  <-> exists pre, x = pre ++ p.
Proof.
  unfold find.
  rewrite (findFrom_iff (insensitive_lits p insensitive_end)). split.
  - intros [pre [suf [-> M]]].
    apply (matchHere_lits p insensitive_end) in M.
    destruct M as [rest [-> M]]. cbn in M.
    destruct rest; [|discriminate]. exists pre.
    now rewrite LiteralFacts.append_nil_r.
  - intros [pre ->]. exists pre, p. split; [reflexivity|].
    apply (matchHere_lits p insensitive_end). exists EmptyString.
    split; [now rewrite LiteralFacts.append_nil_r|reflexivity].
Qed.

Lemma find_contains (p x : string) :
  find ((AnyChar, ZeroOrMore) :: lits p ++ [(AnyChar, ZeroOrMore)])%list x
  = true
  <-> exists pre post, x = pre ++ p ++ post.
Proof.
  unfold find.
  assert (K1 : startInsensitive [(AnyChar, ZeroOrMore)])
    by apply insensitive_star, insensitive_nil.
  pose proof (insensitive_lits p K1) as K2.
  rewrite (findFrom_iff (insensitive_star AnyChar K2)). split.
  - intros [pre [suf [-> M]]]. cbn [matchHere] in M.
    apply zeroOrMore_inv in M. destruct M as [mid [rest [a' [-> M]]]].
    apply (matchHere_lits p K1) in M. destruct M as [post [-> _]].
    exists (pre ++ mid), post. now rewrite LiteralFacts.append_assoc.
  - intros [pre [post ->]]. exists pre, (p ++ post).
    split; [reflexivity|]. cbn [matchHere].
    destruct (p ++ post) eqn:E; cbn [zeroOrMore]; apply orb_true_iff; left;
      rewrite <- ?E;
      apply (matchHere_lits p K1); exists post;
        (split; [reflexivity|]); destruct post; reflexivity.
Qed.

End MatchFacts.

(** X16. In the model of [re2js], the starts-with operator on an ASCII
    pattern text never throws, and its matcher accepts exactly the
    candidates that begin with the text, read character by character:
    regular-expression metacharacters in the text have no effect. *)
Theorem startsWith_is_prefix (text : string) :
  isASCIIText text = true ->
  exists m,
    toMatcher (RE := RE2JS_model)
              (Some {| operator := StartsWith; pattern := text;
                       negate := false |}) = Ok m
    /\ forall x, m x = true <-> exists rest, x = text ++ rest.
Proof.
  intros A. unfold toMatcher, compileOperator.
  cbn [operator pattern negate RE2JS_compile RE2JS_quote RE2JS_model].
  rewrite LiteralFacts.compile_startsWith by exact A. cbn [bind].
  eexists. split; [reflexivity|]. intros x. apply MatchFacts.find_startsWith.
Qed.

Lemma startsWith_is_prefix_witness :
  exists m,
    toMatcher (RE := RE2JS_model)
              (Some {| operator := StartsWith; pattern := "v1.*";
                       negate := false |}) = Ok m
    /\ forall x, m x = true <-> exists rest, x = "v1.*" ++ rest.
Proof.
  apply (@startsWith_is_prefix "v1.*"). reflexivity.
Defined.

(** X17. In the model of [re2js], the ends-with operator on an ASCII
    pattern text never throws, and its matcher accepts exactly the
    candidates that end with the text, read character by character. *)
Theorem endsWith_is_suffix (text : string) :
  isASCIIText text = true ->
  exists m,
    toMatcher (RE := RE2JS_model)
              (Some {| operator := EndsWith; pattern := text;
                       negate := false |}) = Ok m
    /\ forall x, m x = true <-> exists pre, x = pre ++ text.
Proof.
  intros A. unfold toMatcher, compileOperator.
  cbn [operator pattern negate RE2JS_compile RE2JS_quote RE2JS_model].
  rewrite LiteralFacts.compile_endsWith by exact A. cbn [bind].
  eexists. split; [reflexivity|]. intros x. apply MatchFacts.find_endsWith.
Qed.

Lemma endsWith_is_suffix_witness :
  exists m,
    toMatcher (RE := RE2JS_model)
              (Some {| operator := EndsWith; pattern := "@example.com";
                       negate := false |}) = Ok m
    /\ forall x, m x = true <-> exists pre, x = pre ++ "@example.com".
Proof.
  apply (@endsWith_is_suffix "@example.com"). reflexivity.
Defined.

(** X18. In the model of [re2js], the contains operator on an ASCII
    pattern text never throws, and its matcher accepts exactly the
    candidates in which the text occurs, read character by character,
    line feeds in the candidate notwithstanding. *)
Theorem contains_is_substring (text : string) :
  isASCIIText text = true ->
  exists m,
    toMatcher (RE := RE2JS_model)
              (Some {| operator := Contains; pattern := text;
                       negate := false |}) = Ok m
    /\ forall x, m x = true <-> exists pre post, x = pre ++ text ++ post.
Proof.
  intros A. unfold toMatcher, compileOperator.
  cbn [operator pattern negate RE2JS_compile RE2JS_quote RE2JS_model].
  rewrite LiteralFacts.compile_contains by exact A. cbn [bind].
  eexists. split; [reflexivity|]. intros x. apply MatchFacts.find_contains.
Qed.

Lemma contains_is_substring_witness :
  exists m,
    toMatcher (RE := RE2JS_model)
              (Some {| operator := Contains; pattern := "[wip]";
                       negate := false |}) = Ok m
    /\ forall x, m x = true <-> exists pre post, x = pre ++ "[wip]" ++ post.
Proof.
  apply (@contains_is_substring "[wip]"). reflexivity.
Defined.

(* ================================================================== *)
(** ** Exceptions and composition in the aggregator *)

Lemma fold_level_max_from (l : list RepoRuleEnforced)
      (a : RepoRuleEnforced) :
  fold_left level_max l a
  = level_max a (fold_left level_max l NotPresent).
Proof.
  apply level_le_antisym.
  - rewrite fold_level_max_le.
    assert (U : level_le (level_max a (fold_left level_max l NotPresent))
                         (level_max a (fold_left level_max l NotPresent))
                = true) by apply level_le_refl.
    rewrite level_max_le in U at 1. apply andb_true_iff in U.
    destruct U as [Ua Uf]. rewrite fold_level_max_le in Uf.
    apply andb_true_iff in Uf. destruct Uf as [_ Uf].
    now rewrite Ua, Uf.
  - rewrite level_max_le.
    pose proof (level_le_refl (fold_left level_max l a)) as U.
    rewrite fold_level_max_le in U at 1. apply andb_true_iff in U.
    destruct U as [Ua Uf]. rewrite Ua. cbn [andb].
    rewrite fold_level_max_le, Uf. reflexivity.
Qed.

Section AggregatorCompose.
Context `{RE : RE2JSApi} `{ST : MetadataRulesApi}.

Lemma parseRepoRule_throws (rulesets : RulesetMap) (info : RepoRulesInfo)
      (rule : IAPIRepoRule) (e : Exception) :
  parseRepoRule rulesets info rule = Throw e ->
  exists rs, Map_get rulesets (ruleset_id rule) = Some rs
             /\ isPatternType (type rule) = true
             /\ toMatcher (parameters rule) = Throw e.
Proof.
  unfold parseRepoRule.
  destruct (Map_get rulesets (ruleset_id rule)) as [rs|]; [|discriminate].
  assert (M : forall k : option IRepoRulesMetadataRule -> Result RepoRulesInfo,
             (forall v, exists i, k v = Ok i) ->
             bind (toMetadataRule (Some rule) (enforcementOf rs)) k = Throw e ->
             toMatcher (parameters rule) = Throw e).
  { intros k K. unfold toMetadataRule, parameters_of.
    destruct (parameters rule) as [params|].
    - destruct (toMatcher (Some params)) as [m|e']; cbn [bind].
      + destruct (K (Some {| enforced := enforcementOf rs; matcher := m;
                             humanDescription := toHumanDescription params;
                             rulesetId := ruleset_id rule |})) as [i ->].
        discriminate.
      + congruence.
    - cbn [bind]. destruct (K None) as [i ->]. discriminate. }
  destruct (type rule); try discriminate; intros E;
    exists rs; (split; [reflexivity|]); (split; [reflexivity|]);
    (eapply M; [|exact E]); intros v; eexists; reflexivity.
Qed.

Lemma parseLoop_throws (rulesets : RulesetMap) (rules : list IAPIRepoRule)
      (info : RepoRulesInfo) (e : Exception) :
  parseLoop rulesets rules info = Throw e ->
  exists before rule after rs,
    rules = (before ++ rule :: after)%list
    /\ forallb (fun r =>
                  completes (parseRepoRule rulesets newRepoRulesInfo r))
               before = true
    /\ Map_get rulesets (ruleset_id rule) = Some rs
    /\ isPatternType (type rule) = true
    /\ toMatcher (parameters rule) = Throw e.
Proof.
  revert info; induction rules as [|rule rest IH]; intros info; simpl.
  - discriminate.
  - destruct (parseRepoRule rulesets info rule) as [mid|e'] eqn:E1;
      cbn [bind]; intros E.
    + destruct (IH _ E) as [before [r [after [rs [-> [F H]]]]]].
      exists (rule :: before), r, after, rs. split; [reflexivity|].
      split; [|exact H]. cbn [forallb].
      rewrite <- (parseRepoRule_completes rulesets info), E1. exact F.
    + inversion E; subst e'.
      destruct (parseRepoRule_throws _ _ _ E1) as [rs H].
      exists [], rule, rest, rs. split; [reflexivity|].
      split; [reflexivity|exact H].
Qed.

End AggregatorCompose.

(** X19. When [parseRepoRules] throws, the exception is the one
    [toMatcher] raised on the first rule that cannot be compiled: that
    rule is pattern-typed with a known ruleset, and the rules before it
    are aggregated without an exception. *)
Theorem aggregate_throws_first_failure
        `{RE : RE2JSApi} `{ST : MetadataRulesApi}
        (rulesets : RulesetMap) (rules : list IAPIRepoRule)
        (e : Exception) :
  parseRepoRules rules rulesets = Throw e ->
  exists before rule after rs,
    rules = (before ++ rule :: after)%list
    /\ completes (parseRepoRules before rulesets) = true
    /\ Map_get rulesets (ruleset_id rule) = Some rs
    /\ isPatternType (type rule) = true
    /\ toMatcher (parameters rule) = Throw e.
Proof.
  intros E. unfold parseRepoRules in *.
  destruct (parseLoop_throws _ _ _ E)
    as [before [rule [after [rs [-> [F H]]]]]].
  exists before, rule, after, rs. split; [reflexivity|].
  split; [|exact H]. now rewrite parseLoop_completes.
Qed.

Lemma aggregate_throws_first_failure_witness :
  exists before rule after rs,
    [Samples.simpleRule Creation 2;
     Samples.patternRule BranchNamePattern 1 RegexMatch "+x" false;
     Samples.patternRule BranchNamePattern 1 RegexMatch "*" false]
    = (before ++ rule :: after)%list
    /\ completes (parseRepoRules (RE := RE2JS_model) (ST := list_rules)
                                 before Samples.rulesets) = true
    /\ Map_get Samples.rulesets (ruleset_id rule) = Some rs
    /\ isPatternType (type rule) = true
    /\ toMatcher (RE := RE2JS_model) (parameters rule)
       = Throw (RE2JSSyntaxException
                  "missing argument to repetition operator").
Proof.
  apply (@aggregate_throws_first_failure RE2JS_model list_rules
           Samples.rulesets
           [Samples.simpleRule Creation 2;
            Samples.patternRule BranchNamePattern 1 RegexMatch "+x" false;
            Samples.patternRule BranchNamePattern 1 RegexMatch "*" false]).
  reflexivity.
Defined.

(** X20. Summaries compose: when [parseRepoRules] returns on two lists,
    it returns on the first followed by the second; each simple category
    then has the maximum of its two levels, and each pattern list is the
    first summary's list after the pushes of the second list. *)
Theorem aggregate_concat `{RE : RE2JSApi} `{ST : MetadataRulesApi}
        (rulesets : RulesetMap) (l1 l2 : list IAPIRepoRule)
        (i1 i2 : RepoRulesInfo) :
  parseRepoRules l1 rulesets = Ok i1 ->
  parseRepoRules l2 rulesets = Ok i2 ->
  exists i,
    parseRepoRules (l1 ++ l2)%list rulesets = Ok i
    /\ (forall c, levelOf c i = level_max (levelOf c i1) (levelOf c i2))
    /\ (forall pc,
           listOf pc i
           = fold_left push (flat_map (pushedBy rulesets pc) l2)
                       (listOf pc i1)).
Proof.
  intros E1 E2. unfold parseRepoRules in *.
  assert (C : completes (parseLoop rulesets l2 i1) = true).
  { rewrite parseLoop_completes, <- (parseLoop_completes _ _ newRepoRulesInfo).
    now rewrite E2. }
  apply completes_Ok in C. destruct C as [i E].
  exists i. split; [now rewrite parseLoop_app, E1|]. split.
  - intros c.
    rewrite (parseLoop_level _ _ _ c E), (parseLoop_level _ _ _ c E2).
    replace (levelOf c newRepoRulesInfo) with NotPresent
      by (destruct c; reflexivity).
    apply fold_level_max_from.
  - intros pc. apply (parseLoop_list _ _ _ pc E).
Qed.

Lemma aggregate_concat_witness :
  exists i,
    parseRepoRules (RE := RE2JS_model) (ST := list_rules)
                   ([Samples.simpleRule Update 1]
                      ++ [Samples.simpleRule Update 2])%list
                   Samples.rulesets = Ok i
    /\ (forall c,
           levelOf c i
           = level_max
               (levelOf c
                  {| basicCommitWarning := Bypass;
                     creationRestricted := NotPresent;
                     pullRequestRequired := NotPresent;
                     commitMessagePatterns := [];
                     commitAuthorEmailPatterns := [];
                     committerEmailPatterns := [];
                     branchNamePatterns := [] |})
               (levelOf c
                  {| basicCommitWarning := Enforced;
                     creationRestricted := NotPresent;
                     pullRequestRequired := NotPresent;
                     commitMessagePatterns := [];
                     commitAuthorEmailPatterns := [];
                     committerEmailPatterns := [];
                     branchNamePatterns := [] |}))
    /\ (forall pc,
           listOf pc i
           = fold_left push
               (flat_map (pushedBy (RE := RE2JS_model) Samples.rulesets pc)
                         [Samples.simpleRule Update 2])
               (listOf pc
                  {| basicCommitWarning := Bypass;
                     creationRestricted := NotPresent;
                     pullRequestRequired := NotPresent;
                     commitMessagePatterns := [];
                     commitAuthorEmailPatterns := [];
                     committerEmailPatterns := [];
                     branchNamePatterns := [] |})).
Proof.
  apply (@aggregate_concat RE2JS_model list_rules Samples.rulesets
           [Samples.simpleRule Update 1] [Samples.simpleRule Update 2]);
    reflexivity.
Defined.
